(** * serve.py: a development file server with CORS headers and a
      JavaScript MIME override

    A shallow embedding of [serve.py] and of the slice of CPython's
    [http.server] and [socketserver] that the script inherits from and
    calls into, followed by the properties of the script.

    Layout:
    - [PyStr]: the string methods the code calls ([endswith], [lower],
      [split], [repr], [int], [str] of an integer, [os.path.dirname]);
    - [Py]: Python values, exceptions, tuple unpacking;
    - [BaseHTTPRequestHandler], [SimpleHTTPRequestHandler]: the
      superclass methods; they reach the two methods that [serve.py]
      overrides through the class of [self];
    - [CustomHTTPRequestHandler]: the class of [serve.py];
    - [Script]: the module body and the [__main__] block as a program
      over a trace of observable events;
    - [Fixture]: one concrete installation, for the examples;
    - the properties, the claims C1 to C10, and further properties of
      the handler and of the script. *)

From Stdlib Require Import String Ascii List ZArith Lia Bool Arith.
From Stdlib Require Import DecimalString.
Import ListNotations.

Local Open Scope string_scope.
Local Open Scope list_scope.

(* ================================================================== *)
(** ** String methods *)

Module PyStr.

(** [s.endswith(suffix)]: the last [len(suffix)] characters of [s] are
    compared with [suffix]; a suffix longer than [s] never matches. *)
Definition endswith (s suffix : string) : bool :=
  (String.length suffix <=? String.length s)%nat
  && (substring (String.length s - String.length suffix)
                (String.length suffix) s =? suffix).

(** [c.lower()] on one character of the ASCII range. *)
Definition lower_ascii (c : ascii) : ascii :=
  let n := nat_of_ascii c in
  if ((65 <=? n) && (n <=? 90))%nat then ascii_of_nat (n + 32) else c.

(** [s.lower()]. *)
Fixpoint lower (s : string) : string :=
  match s with
  | EmptyString => EmptyString
  | String c t => String (lower_ascii c) (lower t)
  end.

(** [str(n)] and [%d] for an integer. *)
Definition str_of_int (n : Z) : string :=
  NilZero.string_of_int (Z.to_int n).

(** [s.rstrip(c)], on the reversed list of characters. *)
Fixpoint lstrip_list (c : ascii) (l : list ascii) : list ascii :=
  match l with
  | [] => []
  | x :: t => if Ascii.eqb x c then lstrip_list c t else l
  end.

(** Drop the characters before the first [c]: on a reversed string this
    is the slice [p[:p.rfind(c) + 1]], reversed. *)
Fixpoint drop_until (c : ascii) (l : list ascii) : list ascii :=
  match l with
  | [] => []
  | x :: t => if Ascii.eqb x c then l else drop_until c t
  end.

Definition all_sep (l : list ascii) : bool :=
  forallb (fun x => Ascii.eqb x "/"%char) l.

(** [posixpath.dirname]:
<<
    i = p.rfind(sep) + 1
    head = p[:i]
    if head and head != sep*len(head):
        head = head.rstrip(sep)
    return head
>> *)
Definition dirname (p : string) : string :=
  let head := drop_until "/"%char (rev (list_ascii_of_string p)) in
  if all_sep head
  then string_of_list_ascii (rev head)
  else string_of_list_ascii (rev (lstrip_list "/"%char head)).

(** [posixpath.splitext], on the reversed list of characters: the
    extension starts at the last dot of the last path component, unless
    only dots precede it there. *)
Fixpoint span_ext (l : list ascii) : option (list ascii * list ascii) :=
  match l with
  | [] => None
  | c :: t =>
      if Ascii.eqb c "/"%char then None
      else if Ascii.eqb c "."%char then Some ([c], t)
      else match span_ext t with
           | Some (e, r) => Some (c :: e, r)
           | None => None
           end
  end.

Fixpoint has_nondot (l : list ascii) : bool :=
  match l with
  | [] => false
  | c :: t =>
      if Ascii.eqb c "/"%char then false
      else if Ascii.eqb c "."%char then has_nondot t
      else true
  end.

Definition splitext (p : string) : string * string :=
  match span_ext (rev (list_ascii_of_string p)) with
  | Some (e, r) =>
      if has_nondot r
      then (string_of_list_ascii (rev r), string_of_list_ascii (rev e))
      else (p, "")
  | None => (p, "")
  end.

(** [repr(s)] of a string of Latin-1 characters: single quotes, unless
    the string holds one and no double quote; the quote and the
    backslash are escaped, tab, line feed, carriage return and the other
    characters that are not printable are written as escapes. *)
Definition backslash : ascii := ascii_of_nat 92.
Definition single_quote : ascii := ascii_of_nat 39.
Definition double_quote : ascii := ascii_of_nat 34.

Definition hex_digit (n : nat) : ascii :=
  nth n (list_ascii_of_string "0123456789abcdef") "0"%char.

(** [c.isprintable()] for a character below 256. *)
Definition isprintable (c : ascii) : bool :=
  let n := nat_of_ascii c in
  ((32 <=? n) && (n <? 127) || (161 <=? n) && negb (n =? 173))%nat.

Definition escape (quote c : ascii) : string :=
  let n := nat_of_ascii c in
  if Ascii.eqb c quote || Ascii.eqb c backslash
  then String backslash (String c "")
  else if (n =? 9)%nat then String backslash "t"
  else if (n =? 10)%nat then String backslash "n"
  else if (n =? 13)%nat then String backslash "r"
  else if isprintable c then String c ""
  else String backslash
         (String "x" (String (hex_digit (n / 16))
                        (String (hex_digit (n mod 16)) ""))).

Definition contains (c : ascii) (s : string) : bool :=
  existsb (Ascii.eqb c) (list_ascii_of_string s).

Definition repr (s : string) : string :=
  let quote :=
    if contains single_quote s && negb (contains double_quote s)
    then double_quote else single_quote in
  String quote
    (String.concat "" (map (escape quote) (list_ascii_of_string s))
     ++ String quote "").

(** [c.isspace()] for a character below 256. *)
Definition isspace (c : ascii) : bool :=
  let n := nat_of_ascii c in
  ((9 <=? n) && (n <=? 13) || (28 <=? n) && (n <=? 32)
   || (n =? 133) || (n =? 160))%nat.

Definition cons_word (w : string) (ws : list string) : list string :=
  match w with
  | EmptyString => ws
  | _ => w :: ws
  end.

(** The word that [s] starts with, empty when [s] starts with
    whitespace, and the words after it. *)
Fixpoint words (s : string) : string * list string :=
  match s with
  | EmptyString => (EmptyString, [])
  | String c rest =>
      let '(w, ws) := words rest in
      if isspace c then (EmptyString, cons_word w ws)
      else (String c w, ws)
  end.

(** [s.split()]: the words of [s], separated by whitespace. *)
Definition split (s : string) : list string :=
  let '(w, ws) := words s in cons_word w ws.

(** [s.rstrip('\r\n')], through the reversed list of characters. *)
Fixpoint lstrip_crlf (l : list ascii) : list ascii :=
  match l with
  | [] => []
  | c :: t =>
      let n := nat_of_ascii c in
      if ((n =? 13) || (n =? 10))%nat then lstrip_crlf t else l
  end.

Definition rstrip_crlf (s : string) : string :=
  string_of_list_ascii (rev (lstrip_crlf (rev (list_ascii_of_string s)))).

(** [s.split(sep)] for a separator of one character. *)
Fixpoint split_at (sep : ascii) (s : string) : list string :=
  match s with
  | EmptyString => [EmptyString]
  | String c rest =>
      if Ascii.eqb c sep then EmptyString :: split_at sep rest
      else match split_at sep rest with
           | w :: ws => String c w :: ws
           | [] => [String c EmptyString]
           end
  end.

(** [s.split(sep, 1)]: split at the first separator only. *)
Fixpoint split_once (sep : ascii) (s : string) : list string :=
  match s with
  | EmptyString => [EmptyString]
  | String c rest =>
      if Ascii.eqb c sep then [EmptyString; rest]
      else match split_once sep rest with
           | w :: ws => String c w :: ws
           | [] => [String c EmptyString]
           end
  end.

(** [int(s)] for a string without whitespace: an optional sign, then
    decimal digits, with single underscores allowed between digits.
    [None] stands for [ValueError]; a string of more digits than
    [sys.get_int_max_str_digits()] is refused as well. *)
Definition int_max_str_digits : nat := 4300.

Definition digit (c : ascii) : option Z :=
  let n := nat_of_ascii c in
  if ((48 <=? n) && (n <=? 57))%nat then Some (Z.of_nat (n - 48)) else None.

Fixpoint digits (acc : Z) (count : nat) (after_digit : bool) (s : string)
    : option (Z * nat) :=
  match s with
  | EmptyString => if after_digit then Some (acc, count) else None
  | String c rest =>
      match digit c with
      | Some d => digits (10 * acc + d) (S count) true rest
      | None =>
          if Ascii.eqb c "_"%char && after_digit
          then digits acc count false rest
          else None
      end
  end.

Definition int (s : string) : option Z :=
  let '(sign, body) :=
    match s with
    | String "+"%char rest => (1%Z, rest)
    | String "-"%char rest => ((-1)%Z, rest)
    | _ => (1%Z, s)
    end in
  match digits 0 0 false body with
  | Some (n, count) =>
      if (count <=? int_max_str_digits)%nat then Some (sign * n)%Z else None
  | None => None
  end.

(** What [urlsplit] does first with a URL: tab, carriage return and
    line feed are removed from it. *)
Definition remove_unsafe (s : string) : string :=
  string_of_list_ascii
    (filter (fun c => let n := nat_of_ascii c in
                      negb ((n =? 9) || (n =? 10) || (n =? 13))%nat)
            (list_ascii_of_string s)).

End PyStr.

(* ================================================================== *)
(** ** Python values and exceptions *)

Module Py.

(** The values that flow through [guess_type]. *)
#[warnings="-register-all"]
Inductive pyval : Type :=
| PyNone
| PyStr (s : string)
| PyTuple (items : list pyval).

Inductive exn : Type :=
| ValueError
| TypeError
| OSError
| AttributeError
| UnicodeEncodeError
| KeyboardInterrupt
| SystemExit (code : Z).

(** [except Exception]: [KeyboardInterrupt] and [SystemExit] derive
    from [BaseException] only.  [UnicodeEncodeError] is a subclass of
    [ValueError]; [ValueError] here is the exception of that very
    class. *)
Definition is_Exception (e : exn) : bool :=
  match e with
  | ValueError | TypeError | OSError | AttributeError
  | UnicodeEncodeError => true
  | KeyboardInterrupt | SystemExit _ => false
  end.

Inductive result (A : Type) : Type :=
| Return (a : A)
| Raise (e : exn).
Arguments Return {A} a.
Arguments Raise {A} e.

Definition bind {A B} (r : result A) (k : A -> result B) : result B :=
  match r with
  | Return a => k a
  | Raise e => Raise e
  end.

(** The assignment [a, b = v]: [v] is iterated and must yield exactly
    two items.  A tuple yields its items, a string its characters (as
    one-character strings); [None] is not iterable. *)
Definition unpack2 (v : pyval) : result (pyval * pyval) :=
  match v with
  | PyTuple [a; b] => Return (a, b)
  | PyTuple _ => Raise ValueError
  | PyStr (String c1 (String c2 EmptyString)) =>
      Return (PyStr (String c1 EmptyString), PyStr (String c2 EmptyString))
  | PyStr _ => Raise ValueError
  | PyNone => Raise TypeError
  end.

(** A value that the assignment [a, b = v] accepts. *)
Definition two_items (v : pyval) : bool :=
  match unpack2 v with
  | Return _ => true
  | Raise _ => false
  end.

(** [repr(v)] and [str(v)], as the [%s] conversion uses them;
    [repr_str] is [repr] on strings (quoting and escaping). *)
Fixpoint py_repr (repr_str : string -> string) (v : pyval) : string :=
  match v with
  | PyNone => "None"
  | PyStr s => repr_str s
  | PyTuple [x] => "(" ++ py_repr repr_str x ++ ",)"
  | PyTuple items =>
      "(" ++ String.concat ", " (map (py_repr repr_str) items) ++ ")"
  end.

Definition py_str (repr_str : string -> string) (v : pyval) : string :=
  match v with
  | PyStr s => s
  | _ => py_repr repr_str v
  end.

End Py.
Import Py.

Declare Scope py_scope.
Delimit Scope py_scope with py.
Notation "x <- c1 ;; c2" := (Py.bind c1 (fun x => c2))
  (at level 61, c1 at next level, right associativity) : py_scope.
Notation "' pat <- c1 ;; c2" :=
  (Py.bind c1 (fun x => match x with pat => c2 end))
  (at level 61, pat pattern, c1 at next level, right associativity) : py_scope.

(* ================================================================== *)
(** ** The request handler object and its methods *)

(** The instance attributes of a request handler that the methods below
    read and write.  [headers_buffer = None] is the state in which the
    attribute [_headers_buffer] does not exist yet; [wfile] is the list
    of the chunks written to the client, oldest first.  Writing always
    succeeds here: a client that has gone away, for which [wfile.write]
    raises [OSError], is not part of the handler state. *)
Record handler : Type := mkHandler {
  request_version : string;
  command : option string;
  self_path : string;
  headers_buffer : option (list string);
  wfile : list string;
  close_connection : bool
}.

Definition set_headers_buffer (b : option (list string)) (h : handler) :=
  mkHandler (request_version h) (command h) (self_path h) b (wfile h)
            (close_connection h).

Definition set_close_connection (c : bool) (h : handler) :=
  mkHandler (request_version h) (command h) (self_path h) (headers_buffer h)
            (wfile h) c.

Definition set_request_version (v : string) (h : handler) :=
  mkHandler v (command h) (self_path h) (headers_buffer h) (wfile h)
            (close_connection h).

Definition set_command (c : option string) (h : handler) :=
  mkHandler (request_version h) c (self_path h) (headers_buffer h) (wfile h)
            (close_connection h).

Definition set_path (p : string) (h : handler) :=
  mkHandler (request_version h) (command h) p (headers_buffer h) (wfile h)
            (close_connection h).

Definition wfile_write (data : string) (h : handler) :=
  mkHandler (request_version h) (command h) (self_path h) (headers_buffer h)
            (wfile h ++ [data]) (close_connection h).

(** A method body: it runs on the handler, may change it, and returns or
    raises.  What it changed before raising stays changed. *)
Definition M (A : Type) : Type := handler -> result A * handler.

Definition ret {A} (a : A) : M A := fun h => (Return a, h).
Definition throw {A} (e : exn) : M A := fun h => (Raise e, h).
Definition lift {A} (r : result A) : M A := fun h => (r, h).
Definition update (f : handler -> handler) : M unit :=
  fun h => (Return tt, f h).
Definition mbind {A B} (m : M A) (k : A -> M B) : M B :=
  fun h => match m h with
           | (Return a, h') => k a h'
           | (Raise e, h') => (Raise e, h')
           end.

Declare Scope handler_scope.
Delimit Scope handler_scope with handler.
Notation "x <- c1 ;; c2" := (mbind c1 (fun x => c2))
  (at level 61, c1 at next level, right associativity) : handler_scope.
Notation "c1 ;; c2" := (mbind c1 (fun _ => c2))
  (at level 61, right associativity) : handler_scope.

(** The two methods of the handler class that [serve.py] overrides.  The
    superclass calls them through [self], so its methods take the class
    of the object as an argument. *)
Record handler_class : Type := mkClass {
  self_end_headers : M unit;
  self_guess_type : string -> result pyval
}.

(** An open file: what [send_head] reads from it. *)
Record file : Type := mkFile {
  contents : string;
  st_size : Z;
  last_modified : string
}.

(** What building the page of a directory comes to: [os.listdir] raised
    [OSError]; or the page cannot be encoded, and
    [encode(enc, 'surrogateescape')] raises; or the encoded page. *)
Inductive listing : Type :=
| ListingDenied
| ListingUnencodable
| Listing (encoded : string).

(** What the handler methods obtain from outside the handler object
    during one request: class attributes, the clock, the file system,
    and library functions that are used as they are. *)
Record platform : Type := mkPlatform {
  responses : Z -> option (string * string);
  version_string : string;
  date_time_string : string;
  error_page : Z -> string -> string -> string;
  translate_path : string -> string;
  isdir : string -> bool;
  isfile : string -> bool;
  open_rb : string -> option file;
  urlsplit_path : string -> string;
  redirect_url : string -> string;
  listdir_page : string -> string -> listing;
  fs_encoding : string;
  use_browser_cache : file -> bool;
  extensions_map : string -> option string;
  mimetypes_guess_type : string -> option string;
  repr_str : string -> string
}.

Definition CR : ascii := ascii_of_nat 13.
Definition LF : ascii := ascii_of_nat 10.
Definition CRLF : string := String CR (String LF EmptyString).

Module BaseHTTPRequestHandler.
Local Open Scope handler_scope.

Definition protocol_version : string := "HTTP/1.0".
Definition error_content_type : string := "text/html;charset=utf-8".

Definition buffer_append (line : string) (h : handler) : handler :=
  match headers_buffer h with
  | None => set_headers_buffer (Some [line]) h
  | Some b => set_headers_buffer (Some (b ++ [line])) h
  end.

(** [send_response_only(code, message)] *)
Definition send_response_only (P : platform) (code : Z)
    (message : option string) : M unit :=
  fun h =>
    if negb (request_version h =? "HTTP/0.9") then
      let message :=
        match message with
        | Some m => m
        | None => match responses P code with
                  | Some (short, _) => short
                  | None => ""
                  end
        end in
      update (buffer_append
                (protocol_version ++ " " ++ PyStr.str_of_int code ++ " "
                 ++ message ++ CRLF)) h
    else ret tt h.

(** [send_header(keyword, value)] *)
Definition send_header (keyword value : string) : M unit :=
  (fun h =>
     if negb (request_version h =? "HTTP/0.9")
     then update (buffer_append (keyword ++ ": " ++ value ++ CRLF)) h
     else ret tt h) ;;
  if PyStr.lower keyword =? "connection" then
    if PyStr.lower value =? "close" then update (set_close_connection true)
    else if PyStr.lower value =? "keep-alive"
         then update (set_close_connection false)
         else ret tt
  else ret tt.

(** [flush_headers()] *)
Definition flush_headers : M unit :=
  fun h =>
    match headers_buffer h with
    | Some b =>
        update (fun h => set_headers_buffer (Some [])
                           (wfile_write (String.concat "" b) h)) h
    | None => ret tt h
    end.

(** [end_headers()] of the base class; appending to a buffer that does
    not exist raises. *)
Definition end_headers : M unit :=
  fun h =>
    if negb (request_version h =? "HTTP/0.9") then
      match headers_buffer h with
      | Some _ => (update (buffer_append CRLF) ;; flush_headers) h
      | None => throw AttributeError h
      end
    else ret tt h.

(** [send_response(code, message)]; the access log line goes to the
    standard error stream and is not part of the handler state. *)
Definition send_response (P : platform) (code : Z)
    (message : option string) : M unit :=
  send_response_only P code message ;;
  send_header "Server" (version_string P) ;;
  send_header "Date" (date_time_string P).

(** [send_error(code, message, explain)] *)
Definition send_error (self : handler_class) (P : platform) (code : Z)
    (message explain : option string) : M unit :=
  let '(shortmsg, longmsg) :=
    match responses P code with
    | Some sl => sl
    | None => ("???", "???")
    end in
  let message := match message with Some m => m | None => shortmsg end in
  let explain := match explain with Some x => x | None => longmsg end in
  send_response P code (Some message) ;;
  send_header "Connection" "close" ;;
  body <- (if (200 <=? code)%Z
              && negb ((code =? 204)%Z || (code =? 205)%Z || (code =? 304)%Z)
           then
             let body := error_page P code message explain in
             send_header "Content-Type" error_content_type ;;
             send_header "Content-Length"
               (PyStr.str_of_int (Z.of_nat (String.length body))) ;;
             ret (Some body)
           else ret None) ;;
  self_end_headers self ;;
  fun h =>
    match body with
    | Some b =>
        if negb (match command h with
                 | Some c => c =? "HEAD"
                 | None => false
                 end)
           && negb (b =? "")
        then update (wfile_write b) h
        else ret tt h
    | None => ret tt h
    end.

(** What [http.client.parse_headers] makes of the lines after the
    request line: the headers, of which [parse_request] reads
    [Connection] and [Expect] (empty when absent), or one of the two
    exceptions that [parse_request] catches.  [LineTooLong] is caught
    first, any other [HTTPException] second. *)
Inductive request_headers : Type :=
| Headers (connection expect : string)
| LineTooLong (err : string)
| HTTPException (err : string).

Definition default_request_version : string := "HTTP/0.9".

(** [a >= b] on tuples of two integers. *)
Definition pair_ge (a b : Z * Z) : bool :=
  (fst b <? fst a)%Z || ((fst a =? fst b)%Z && (snd b <=? snd a)%Z).

(** The [try] block of [parse_request]: the text after [HTTP/] and the
    two numbers of the version; [None] when [ValueError] or
    [IndexError] is raised. *)
Definition version_number (version : string)
    : option (string * (Z * Z)) :=
  if String.prefix "HTTP/" version then
    match nth_error (PyStr.split_once "/" version) 1 with
    | Some base_version_number =>
        match PyStr.split_at "." base_version_number with
        | [major; minor] =>
            match PyStr.int major, PyStr.int minor with
            | Some a, Some b => Some (base_version_number, (a, b))
            | _, _ => None
            end
        | _ => None
        end
    | None => None
    end
  else None.

(** [handle_expect_100()] *)
Definition handle_expect_100 (self : handler_class) (P : platform)
    : M bool :=
  send_response_only P 100 None ;;
  self_end_headers self ;;
  ret true.

(** The path as [parse_request] stores it: leading slashes are reduced
    to one. *)
Definition stored_path (path : string) : string :=
  if String.prefix "//" path
  then ("/" ++ string_of_list_ascii
                 (PyStr.lstrip_list "/" (list_ascii_of_string path)))%string
  else path.

(** [parse_request()], from the words of the request line on.  The
    result is what the method returns. *)
Definition parse_words (self : handler_class) (P : platform)
    (requestline : string) (words : list string)
    (headers : request_headers) : M bool :=
  if (List.length words =? 0)%nat then ret false else
  accepted <-
    (if (3 <=? List.length words)%nat then
       let version := last words "" in
       match version_number version with
       | None =>
           send_error self P 400
             (Some ("Bad request version (" ++ repr_str P version ++ ")")%string)
             None ;;
           ret false
       | Some (base_version_number, number) =>
           (if pair_ge number (1, 1)%Z
               && String.leb "HTTP/1.1" protocol_version
            then update (set_close_connection false) else ret tt) ;;
           if pair_ge number (2, 0)%Z then
             send_error self P 505
               (Some ("Invalid HTTP version (" ++ base_version_number
                      ++ ")")%string)
               None ;;
             ret false
           else update (set_request_version version) ;; ret true
       end
     else ret true) ;;
  if negb accepted then ret false else
  if negb ((2 <=? List.length words)%nat && (List.length words <=? 3)%nat)
  then
    send_error self P 400
      (Some ("Bad request syntax (" ++ repr_str P requestline ++ ")")%string)
      None ;;
    ret false
  else
    match words with
    | command :: path :: _ =>
        accepted <-
          (if (List.length words =? 2)%nat then
             update (set_close_connection true) ;;
             if negb (command =? "GET") then
               send_error self P 400
                 (Some ("Bad HTTP/0.9 request type ("
                        ++ repr_str P command ++ ")")%string) None ;;
               ret false
             else ret true
           else ret true) ;;
        if negb accepted then ret false else
        update (fun h => set_path (stored_path path)
                           (set_command (Some command) h)) ;;
        match headers with
        | LineTooLong err =>
            send_error self P 431 (Some "Line too long") (Some err) ;;
            ret false
        | HTTPException err =>
            send_error self P 431 (Some "Too many headers") (Some err) ;;
            ret false
        | Headers conntype expect =>
            (if PyStr.lower conntype =? "close"
             then update (set_close_connection true)
             else if (PyStr.lower conntype =? "keep-alive")
                     && String.leb "HTTP/1.1" protocol_version
                  then update (set_close_connection false)
                  else ret tt) ;;
            fun h =>
              if (PyStr.lower expect =? "100-continue")
                 && String.leb "HTTP/1.1" protocol_version
                 && String.leb "HTTP/1.1" (request_version h)
              then handle_expect_100 self P h
              else ret true h
        end
    | _ => ret false
    end.

(** [parse_request()]: the request line is read as Latin-1, so that a
    byte is a character. *)
Definition parse_request (self : handler_class) (P : platform)
    (raw_requestline : string) (headers : request_headers) : M bool :=
  update (fun h => set_close_connection true
                     (set_request_version default_request_version
                        (set_command None h))) ;;
  let requestline := PyStr.rstrip_crlf raw_requestline in
  parse_words self P requestline (PyStr.split requestline) headers.

End BaseHTTPRequestHandler.

Module SimpleHTTPRequestHandler.
Local Open Scope handler_scope.
Import BaseHTTPRequestHandler.

(** [posixpath.join(a, b)] *)
Definition join (a b : string) : string :=
  if String.prefix "/" b then b
  else if (a =? "") || PyStr.endswith a "/" then a ++ b
       else a ++ "/" ++ b.

(** [guess_type(path)] of the base class.  Its docstring: "Return value
    is a string of the form type/subtype, usable for a MIME
    Content-type header." *)
Definition guess_type (P : platform) (path : string) : result pyval :=
  let '(_, ext) := PyStr.splitext path in
  match extensions_map P ext with
  | Some t => Return (PyStr t)
  | None =>
      let ext := PyStr.lower ext in
      match extensions_map P ext with
      | Some t => Return (PyStr t)
      | None =>
          match mimetypes_guess_type P path with
          | Some guess =>
              if negb (guess =? "") then Return (PyStr guess)
              else Return (PyStr "application/octet-stream")
          | None => Return (PyStr "application/octet-stream")
          end
      end
  end.

(** [list_directory(path)] *)
Definition list_directory (self : handler_class) (P : platform)
    (path : string) : M (option file) :=
  fun h =>
    match listdir_page P path (self_path h) with
    | ListingDenied =>
        (send_error self P 404 (Some "No permission to list directory")
                    None ;;
         ret None) h
    | ListingUnencodable => throw UnicodeEncodeError h
    | Listing encoded =>
        (send_response P 200 None ;;
         send_header "Content-type"
                     ("text/html; charset=" ++ fs_encoding P) ;;
         send_header "Content-Length"
                     (PyStr.str_of_int (Z.of_nat (String.length encoded))) ;;
         self_end_headers self ;;
         ret (Some (mkFile encoded (Z.of_nat (String.length encoded)) ""))) h
    end.

(** The tail of [send_head], from [ctype = self.guess_type(path)] on. *)
Definition send_head_file (self : handler_class) (P : platform)
    (path : string) : M (option file) :=
  ctype <- lift (self_guess_type self path) ;;
  if PyStr.endswith path "/" then
    send_error self P 404 (Some "File not found") None ;; ret None
  else
    match open_rb P path with
    | None => send_error self P 404 (Some "File not found") None ;; ret None
    | Some f =>
        if use_browser_cache P f then
          send_response P 304 None ;;
          self_end_headers self ;;
          ret None
        else
          send_response P 200 None ;;
          send_header "Content-type" (py_str (repr_str P) ctype) ;;
          send_header "Content-Length" (PyStr.str_of_int (st_size f)) ;;
          send_header "Last-Modified" (last_modified f) ;;
          self_end_headers self ;;
          ret (Some f)
    end.

(** [send_head()] *)
Definition send_head (self : handler_class) (P : platform)
    : M (option file) :=
  fun h =>
    let path := translate_path P (self_path h) in
    if isdir P path then
      if negb (PyStr.endswith (urlsplit_path P (self_path h)) "/") then
        (send_response P 301 None ;;
         send_header "Location" (redirect_url P (self_path h)) ;;
         send_header "Content-Length" "0" ;;
         self_end_headers self ;;
         ret None) h
      else if isfile P (join path "index.html")
           then send_head_file self P (join path "index.html") h
      else if isfile P (join path "index.htm")
           then send_head_file self P (join path "index.htm") h
      else list_directory self P path h
    else send_head_file self P path h.

(** [do_GET()]; [copyfile] writes the whole file to [wfile]. *)
Definition do_GET (self : handler_class) (P : platform) : M unit :=
  f <- send_head self P ;;
  match f with
  | Some f => update (wfile_write (contents f))
  | None => ret tt
  end.

(** [do_HEAD()] *)
Definition do_HEAD (self : handler_class) (P : platform) : M unit :=
  f <- send_head self P ;;
  ret tt.

(** The class as [http.server] defines it. *)
Definition class (P : platform) : handler_class :=
  mkClass BaseHTTPRequestHandler.end_headers (guess_type P).

End SimpleHTTPRequestHandler.

(* ================================================================== *)
(** ** serve.py: the handler class *)

Module CustomHTTPRequestHandler.
Import BaseHTTPRequestHandler.

(** [end_headers], lines 22-27. *)
Definition end_headers : M unit :=
  (send_header "Access-Control-Allow-Origin" "*" ;;
   send_header "Access-Control-Allow-Methods" "GET, POST, OPTIONS" ;;
   send_header "Access-Control-Allow-Headers" "Content-Type" ;;
   BaseHTTPRequestHandler.end_headers)%handler.

(** [guess_type], lines 29-34; [super_guess_type] is the method of the
    superclass. *)
Definition guess_type (super_guess_type : string -> result pyval)
    (path : string) : result pyval :=
  (r <- super_guess_type path ;;
   '(mimetype, encoding) <- unpack2 r ;;
   if PyStr.endswith path ".js"
   then Return (PyStr "application/javascript")
   else Return (PyTuple [mimetype; encoding]))%py.

(** [class CustomHTTPRequestHandler(http.server.SimpleHTTPRequestHandler)] *)
Definition class (P : platform) : handler_class :=
  mkClass end_headers (guess_type (SimpleHTTPRequestHandler.guess_type P)).

Definition send_error (P : platform) :=
  BaseHTTPRequestHandler.send_error (class P) P.
Definition send_head (P : platform) :=
  SimpleHTTPRequestHandler.send_head (class P) P.
Definition do_GET (P : platform) :=
  SimpleHTTPRequestHandler.do_GET (class P) P.
Definition do_HEAD (P : platform) :=
  SimpleHTTPRequestHandler.do_HEAD (class P) P.

End CustomHTTPRequestHandler.

(* ================================================================== *)
(** ** serve.py: the module body and the [__main__] block *)

Module Script.

Definition PORT : Z := 8000.

(** [project_root], line 16; [abspath_file] is
    [os.path.abspath(__file__)]. *)
Definition project_root (abspath_file : string) : string :=
  PyStr.dirname (PyStr.dirname abspath_file).

(** What the process does that can be observed from outside. *)
Inductive event : Type :=
| Chdir (dir : string)
| Bind (host : string) (port : Z)
| Stdout (text : string)
| Stderr (text : string)
| Accepting
| Response (chunks : list string)
| ServerClose.

(** What arrives while [serve_forever] runs: a request that
    [parse_request] accepted, given by what it stored in [self.command],
    [self.path] and [self.request_version] and by the surroundings of
    that request, or the interrupt signal.  Request lines that
    [parse_request] answers itself are no arrivals here. *)
Inductive arrival : Type :=
| Request (P : platform) (command path version : string)
| Interrupt.

(** The handler object as [parse_request] leaves it when it returns
    [True], with [command], [path] and [version] stored: no header is
    buffered and nothing is written yet.  The version of a request line
    that had none is ['HTTP/0.9']. *)
Definition parsed_request (command path version : string) : handler :=
  mkHandler version (Some command) path None [] true.

(** The surroundings of one run of the script: where the script is,
    whether [os.chdir] and binding the socket fail (both raise
    [OSError] then), and what arrives.  After the [incoming] arrivals
    nothing more arrives and the server waits. *)
Record environment : Type := mkEnv {
  abspath_file : string;
  chdir_fails : bool;
  bind_fails : bool;
  incoming : list arrival
}.

Inductive outcome (A : Type) : Type :=
| Normal (a : A)
| Exc (e : exn)
| Forever.
Arguments Normal {A} a.
Arguments Exc {A} e.
Arguments Forever {A}.

(** A statement: it extends the trace and completes, raises or never
    returns. *)
Definition P (A : Type) : Type := list event -> outcome A * list event.

Definition pret {A} (a : A) : P A := fun t => (Normal a, t).
Definition raise {A} (e : exn) : P A := fun t => (Exc e, t).
Definition block {A} : P A := fun t => (Forever, t).
Definition emit (ev : event) : P unit := fun t => (Normal tt, t ++ [ev]).
Definition pbind {A B} (m : P A) (k : A -> P B) : P B :=
  fun t => match m t with
           | (Normal a, t') => k a t'
           | (Exc e, t') => (Exc e, t')
           | (Forever, t') => (Forever, t')
           end.

Declare Scope script_scope.
Delimit Scope script_scope with script.
Notation "c1 ;; c2" := (pbind c1 (fun _ => c2))
  (at level 61, right associativity) : script_scope.
Local Open Scope script_scope.

(** [try: body  except KeyboardInterrupt: handler] *)
Definition try_except_KeyboardInterrupt {A} (body handler : P A) : P A :=
  fun t => match body t with
           | (Exc KeyboardInterrupt, t') => handler t'
           | r => r
           end.

(** [with ctor as httpd: body], for a server object: [__exit__] calls
    [server_close()] and does not swallow the exception. *)
Definition with_server {A} (ctor : P unit) (body : P A) : P A :=
  ctor ;;
  fun t => match body t with
           | (Forever, t') => (Forever, t')
           | (r, t') => (r, t' ++ [ServerClose])
           end.

Definition print (s : string) : P unit :=
  emit (Stdout (s ++ String LF EmptyString)).

Definition sys_exit {A} (code : Z) : P A := raise (SystemExit code).

Definition chdir (env : environment) (dir : string) : P unit :=
  if chdir_fails env then raise OSError else emit (Chdir dir).

(** [socketserver.TCPServer(server_address, Handler)]: the constructor
    binds and listens; when that raises it closes the socket and
    re-raises. *)
Definition TCPServer (env : environment) (host : string) (port : Z)
    : P unit :=
  emit (Bind host port) ;;
  if bind_fails env then emit ServerClose ;; raise OSError else pret tt.

Definition traceback : string := "Traceback (most recent call last):".

(** [handle_one_request], after [parse_request] succeeded. *)
Definition dispatch (Pf : platform) : M unit :=
  fun h =>
    match command h with
    | Some c =>
        if c =? "GET" then CustomHTTPRequestHandler.do_GET Pf h
        else if c =? "HEAD" then CustomHTTPRequestHandler.do_HEAD Pf h
        else CustomHTTPRequestHandler.send_error Pf 501
               (Some ("Unsupported method (" ++ repr_str Pf c ++ ")")%string)
               None h
    | None => ret tt h
    end.

(** The handler object when [handle] calls [handle_one_request]:
    nothing is buffered or written, and the connection is to be closed
    after the request.  The version and the method are the ones that
    [parse_request] starts from. *)
Definition new_handler : handler :=
  mkHandler BaseHTTPRequestHandler.default_request_version None "" None []
            true.

(** [handle_one_request()]: [raw_requestline] is what
    [self.rfile.readline(65537)] returned.  The class has the methods
    [do_GET] and [do_HEAD] and no other whose name starts with [do_]. *)
Definition handle_one_request (Pf : platform) (raw_requestline : string)
    (headers : BaseHTTPRequestHandler.request_headers) : M unit :=
  if (65536 <? Z.of_nat (String.length raw_requestline))%Z then
    mbind (update (fun h => set_command (Some "")
                              (set_request_version "" h)))
          (fun _ => CustomHTTPRequestHandler.send_error Pf 414 None None)
  else if (String.length raw_requestline =? 0)%nat then
    update (set_close_connection true)
  else
    mbind (BaseHTTPRequestHandler.parse_request
             (CustomHTTPRequestHandler.class Pf) Pf raw_requestline headers)
          (fun accepted => if accepted then dispatch Pf else ret tt).

(** [_handle_request_noblock]: the handler runs; [except Exception]
    reports on the standard error stream and drops the connection,
    anything else is re-raised. *)
Definition handle_request (Pf : platform) (h : handler) : P unit :=
  match dispatch Pf h with
  | (Return _, h') => emit (Response (wfile h'))
  | (Raise e, h') =>
      emit (Response (wfile h')) ;;
      if is_Exception e then emit (Stderr traceback) else raise e
  end.

(** [httpd.serve_forever()] *)
Fixpoint serve_loop (arrivals : list arrival) : P unit :=
  match arrivals with
  | [] => block
  | Request Pf command path version :: rest =>
      handle_request Pf (parsed_request command path version) ;;
      serve_loop rest
  | Interrupt :: _ => raise KeyboardInterrupt
  end.

Definition serve_forever (env : environment) : P unit :=
  emit Accepting ;; serve_loop (incoming env).

Definition url : string := "http://localhost:" ++ PyStr.str_of_int PORT.

(** The script, lines 16-47. *)
Definition main (env : environment) : P unit :=
  chdir env (project_root (abspath_file env)) ;;
  with_server (TCPServer env "" PORT)
    (print ("Serving at " ++ url) ;;
     print "Examples available at:" ;;
     print ("  " ++ url ++ "/examples/basic-usage-simple.html") ;;
     print ("  " ++ url ++ "/examples/basic-usage.html") ;;
     print (String LF "Press Ctrl+C to stop the server") ;;
     try_except_KeyboardInterrupt
       (serve_forever env)
       (print (String LF "Server stopped") ;; sys_exit 0)).

(** How the process ends. *)
Inductive status : Type :=
| Exited (code : Z)
| Killed
| Running.

(** The interpreter around the script: [SystemExit] sets the exit
    status, an interrupt that nothing caught ends the process by the
    signal, any other exception is printed and the status is 1. *)
Definition run (env : environment) : list event * status :=
  match main env [] with
  | (Normal _, t) => (t, Exited 0)
  | (Exc (SystemExit c), t) => (t, Exited c)
  | (Exc KeyboardInterrupt, t) => (t ++ [Stderr traceback], Killed)
  | (Exc _, t) => (t ++ [Stderr traceback], Exited 1)
  | (Forever, t) => (t, Running)
  end.

End Script.

(* ================================================================== *)
(** ** A concrete installation, for the examples *)

Module Fixture.
Local Open Scope string_scope.

Definition root : string := "/srv/oncoprint-js".

(** The entries of [BaseHTTPRequestHandler.responses] that occur. *)
Definition responses_table (code : Z) : option (string * string) :=
  if (code =? 200)%Z then
    Some ("OK", "Request fulfilled, document follows")
  else if (code =? 301)%Z then
    Some ("Moved Permanently", "Object moved permanently -- see URI list")
  else if (code =? 304)%Z then
    Some ("Not Modified", "Document has not changed since given time")
  else if (code =? 400)%Z then
    Some ("Bad Request", "Bad request syntax or unsupported method")
  else if (code =? 404)%Z then
    Some ("Not Found", "Nothing matches the given URI")
  else if (code =? 501)%Z then
    Some ("Not Implemented", "Server does not support this operation")
  else None.

(** [SimpleHTTPRequestHandler.extensions_map] as the class defines it. *)
Definition default_extensions_map (ext : string) : option string :=
  if ext =? ".gz" then Some "application/gzip"
  else if ext =? ".Z" then Some "application/octet-stream"
  else if ext =? ".bz2" then Some "application/x-bzip2"
  else if ext =? ".xz" then Some "application/x-xz"
  else None.

(** A few rows of the [mimetypes] table. *)
Definition types_map_guess (p : string) : option string :=
  let ext := PyStr.lower (snd (PyStr.splitext p)) in
  if ext =? ".js" then Some "text/javascript"
  else if ext =? ".html" then Some "text/html"
  else if ext =? ".css" then Some "text/css"
  else None.

Definition files : list (string * string) :=
  [ (root ++ "/examples/basic-usage.html", "<!DOCTYPE html>");
    (root ++ "/examples/basic-usage-simple.html", "<!DOCTYPE html>");
    (root ++ "/styles/app.js", "export {};") ].

Definition dirs : list string :=
  [ root; root ++ "/"; root ++ "/examples"; root ++ "/examples/";
    root ++ "/styles"; root ++ "/styles/" ].

Fixpoint lookup (k : string) (l : list (string * string)) : option string :=
  match l with
  | [] => None
  | (k', v) :: t => if k =? k' then Some v else lookup k t
  end.

Definition mem (k : string) (l : list string) : bool :=
  existsb (String.eqb k) l.

Definition cpython : platform :=
  {| responses := responses_table;
     version_string := "SimpleHTTP/0.6 Python/3.11.2";
     date_time_string := "Tue, 03 Nov 2026 10:00:00 GMT";
     error_page := fun code message explain =>
       "<!DOCTYPE HTML><title>Error response</title><p>Error code: "
       ++ PyStr.str_of_int code ++ "</p><p>Message: " ++ message ++ ".</p>";
     translate_path := fun p => root ++ p;
     isdir := fun p => mem p dirs;
     isfile := fun p => match lookup p files with
                        | Some _ => true
                        | None => false
                        end;
     open_rb := fun p =>
       match lookup p files with
       | Some c => Some (mkFile c (Z.of_nat (String.length c))
                                "Mon, 02 Nov 2026 09:00:00 GMT")
       | None => None
       end;
     urlsplit_path := fun p => p;
     redirect_url := fun p => PyStr.remove_unsafe p ++ "/";
     listdir_page := fun p _ =>
       if mem p dirs
       then Listing "<!DOCTYPE HTML><title>Directory listing</title>"
       else ListingDenied;
     fs_encoding := "utf-8";
     use_browser_cache := fun _ => false;
     extensions_map := default_extensions_map;
     mimetypes_guess_type := types_map_guess;
     repr_str := PyStr.repr |}.

Definition env (incoming : list Script.arrival) : Script.environment :=
  Script.mkEnv (root ++ "/scripts/serve.py") false false incoming.

End Fixture.

(* ================================================================== *)
(** ** The vocabulary of the properties *)

(** The three header lines that [end_headers] of [serve.py] sends. *)
Definition cors_headers : list string :=
  [ ("Access-Control-Allow-Origin: *" ++ CRLF)%string;
    ("Access-Control-Allow-Methods: GET, POST, OPTIONS" ++ CRLF)%string;
    ("Access-Control-Allow-Headers: Content-Type" ++ CRLF)%string ].

(** The header lines that wait in the buffer. *)
Definition buffered (h : handler) : list string :=
  match headers_buffer h with
  | Some b => b
  | None => []
  end.

Definition version_0_9 (h : handler) : bool :=
  (request_version h =? "HTTP/0.9")%string.

(** The tables hold MIME types, [type/subtype]: none is two characters
    long. *)
Definition mime_tables (P : platform) : Prop :=
  (forall ext t, extensions_map P ext = Some t -> String.length t <> 2)
  /\ (forall p t, mimetypes_guess_type P p = Some t -> String.length t <> 2).

(** Whatever [m] raises, [except Exception] catches. *)
Definition safe {A} (m : M A) : Prop :=
  forall h e h', m h = (Raise e, h') -> is_Exception e = true.

(** The same three without the line end: the texts to look for in what
    was sent. *)
Definition cors_fields : list string :=
  [ "Access-Control-Allow-Origin: *"%string;
    "Access-Control-Allow-Methods: GET, POST, OPTIONS"%string;
    "Access-Control-Allow-Headers: Content-Type"%string ].

(** No line feed in [s]. *)
Fixpoint no_lf (s : string) : bool :=
  match s with
  | EmptyString => true
  | String c s' => negb (Ascii.eqb c LF) && no_lf s'
  end.

(** [text.split('\r\n')]: the lines of a text whose lines end in
    carriage return and line feed. *)
Fixpoint split_crlf (text : string) : list string :=
  match text with
  | EmptyString => [EmptyString]
  | String c rest =>
      match split_crlf rest with
      | String d l :: ls =>
          if Ascii.eqb c CR && Ascii.eqb d LF
          then EmptyString :: l :: ls
          else String c (String d l) :: ls
      | l :: ls => String c l :: ls
      | [] => [String c EmptyString]
      end
  end.

(** None of the texts that the library puts into a status line or a
    header value holds a line feed: the server and date strings, the
    reason phrases, the redirect target (made by [urlsplit] and
    [urlunsplit]), the name of the file system encoding, the
    modification date of a file, and the [repr] of a string. *)
Record clean_platform (P : platform) : Prop := mkClean {
  clean_version_string : no_lf (version_string P) = true;
  clean_date_time_string : no_lf (date_time_string P) = true;
  clean_responses :
    forall code short long,
      responses P code = Some (short, long) -> no_lf short = true;
  clean_redirect_url : forall p, no_lf (redirect_url P p) = true;
  clean_fs_encoding : no_lf (fs_encoding P) = true;
  clean_last_modified :
    forall path f, open_rb P path = Some f -> no_lf (last_modified f) = true;
  clean_repr_str : forall s, no_lf (repr_str P s) = true
}.

(** A header line of the base class: one line, and none of the three. *)
Definition base_line (l : string) : Prop :=
  exists content,
    l = (content ++ CRLF)%string
    /\ no_lf content = true
    /\ ~ In content cors_fields.

(** [h'] is [h] after more header lines [ls] went to the buffer and
    nothing went to the client. *)
Record buffers (h h' : handler) (ls : list string) : Prop := mkBuffers {
  buffers_lines : buffered h' = buffered h ++ ls;
  buffers_wfile : wfile h' = wfile h;
  buffers_version : version_0_9 h' = version_0_9 h;
  buffers_base : Forall base_line ls
}.

(** [m] buffers header lines of the base class and returns. *)
Definition builds {A} (m : M A) : Prop :=
  forall h, version_0_9 h = false ->
    exists a h' ls, m h = (Return a, h') /\ buffers h h' ls.

(** [m] only writes to the client and returns. *)
Definition writes {A} (m : M A) : Prop :=
  forall h, exists a h' rest,
    m h = (Return a, h') /\ wfile h' = wfile h ++ rest.

(** Between [h] and [h'] one header block went to the client: what was
    buffered, then lines [base] of the base class, then the three lines
    and the blank line; after it [rest]. *)
Definition answered (h h' : handler) : Prop :=
  exists base rest,
    wfile h' = wfile h
               ++ String.concat "" (buffered h ++ base ++ cors_headers ++ [CRLF])
               :: rest
    /\ Forall base_line base.

(** [m] sends one such block, or raises before anything is sent. *)
Definition answers {A} (m : M A) : Prop :=
  forall h, version_0_9 h = false ->
    forall r h', m h = (r, h') ->
      match r with
      | Return _ => answered h h'
      | Raise e => is_Exception e = true /\ wfile h' = wfile h
      end.

Definition newline : string := String LF EmptyString.

(** What [print] wrote when the accept loop starts. *)
Definition banner : list Script.event :=
  map Script.Stdout
    [ "Serving at http://localhost:8000" ++ newline;
      "Examples available at:" ++ newline;
      "  http://localhost:8000/examples/basic-usage-simple.html" ++ newline;
      "  http://localhost:8000/examples/basic-usage.html" ++ newline;
      newline ++ "Press Ctrl+C to stop the server" ++ newline ]%string.

Definition stop_notice : Script.event :=
  Script.Stdout (newline ++ "Server stopped" ++ newline).

(** The trace when [serve_forever] is entered. *)
Definition startup (env : Script.environment) : list Script.event :=
  (Script.Chdir (Script.project_root (Script.abspath_file env))
   :: Script.Bind "" 8000
   :: banner ++ [Script.Accepting])%list.

(** What the accept loop adds to the trace. *)
Definition serving_event (ev : Script.event) : Prop :=
  match ev with
  | Script.Response _ | Script.Stderr _ => True
  | _ => False
  end.

Definition is_Interrupt (a : Script.arrival) : bool :=
  match a with
  | Script.Interrupt => true
  | Script.Request _ _ _ _ => false
  end.

(** A single path component: no separator in it. *)
Definition no_sep (s : string) : bool :=
  forallb (fun x => negb (Ascii.eqb x "/"%char)) (list_ascii_of_string s).

(** The last character of [s] exists and is not the separator. *)
Definition ends_in_name (s : string) : bool :=
  match rev (list_ascii_of_string s) with
  | c :: _ => negb (Ascii.eqb c "/"%char)
  | [] => false
  end.

(** The text that closes a header block sent through [serve.py]. *)
Definition cors_tail : string :=
  String.concat "" (cors_headers ++ [CRLF])%list.

(** A response carries the three headers once each: the first piece
    sent, the header block, ends with the three lines and the blank
    line, and among the lines of its text each of the three occurs
    exactly once. *)
Definition carries_cors_once (h h' : handler) : Prop :=
  exists block rest,
    wfile h' = wfile h ++ block :: rest
    /\ PyStr.endswith block cors_tail = true
    /\ forall l, In l cors_fields ->
         count_occ string_dec (split_crlf block) l = 1.

(** What a method that ended with [r] sent: when it returned, a response
    that carries the three headers; when it raised, nothing, or the
    beginning of such a response. *)
Definition sent_with_cors {A} (r : result A) (h h' : handler) : Prop :=
  match r with
  | Return _ => carries_cors_once h h'
  | Raise _ => wfile h' = wfile h \/ carries_cors_once h h'
  end.

(** [m] returns, whatever the handler is. *)
Definition returns {A} (m : M A) : Prop :=
  forall h, exists a h', m h = (Return a, h').

(** The requests for which [send_head] gets as far as
    [ctype = self.guess_type(path)]: the path is not a directory, or it
    is one, asked for with the trailing slash, that holds an index
    page. *)
Definition reaches_guess_type (P : platform) (h : handler) : bool :=
  let path := translate_path P (self_path h) in
  negb (isdir P path)
  || (PyStr.endswith (urlsplit_path P (self_path h)) "/"
      && (isfile P (SimpleHTTPRequestHandler.join path "index.html")
          || isfile P (SimpleHTTPRequestHandler.join path "index.htm"))).

(** The header lines of an error response before the override adds its
    own: what [send_error] buffers for a code that has a body. *)
Definition error_lines (P : platform) (code : Z) (message body : string)
    : list string :=
  [ (BaseHTTPRequestHandler.protocol_version ++ " " ++ PyStr.str_of_int code
     ++ " " ++ message ++ CRLF)%string;
    ("Server: " ++ version_string P ++ CRLF)%string;
    ("Date: " ++ date_time_string P ++ CRLF)%string;
    ("Connection: close" ++ CRLF)%string;
    ("Content-Type: text/html;charset=utf-8" ++ CRLF)%string;
    ("Content-Length: "
     ++ PyStr.str_of_int (Z.of_nat (String.length body)) ++ CRLF)%string ].

(** The explanation [send_error] uses when it is given none. *)
Definition long_message (P : platform) (code : Z) : string :=
  match responses P code with
  | Some (_, longmsg) => longmsg
  | None => "???"%string
  end.

(** [m] leaves the request version as it is. *)
Definition keeps_version {A} (m : M A) : Prop :=
  forall h r h', m h = (r, h') -> request_version h' = request_version h.

(** How [parse_request] ends, from the handler [h]: it accepted the
    request, and then nothing is buffered or sent and the method is
    stored; or it answered itself, with a response that carries the
    three headers unless the version is still ['HTTP/0.9']. *)
Definition parsed (h : handler) (r : result bool) (h' : handler) : Prop :=
  (r = Return true /\ wfile h' = wfile h /\ buffered h' = []
   /\ command h' <> None)
  \/ (r = Return false
      /\ (request_version h' <> "HTTP/0.9"%string ->
          carries_cors_once h h')).

(** A word of a request line: not empty, and no whitespace in it. *)
Definition is_word (w : string) : bool :=
  negb (w =? "")%string
  && forallb (fun c => negb (PyStr.isspace c)) (list_ascii_of_string w).

(** How [parse_request] turns down the last word of a request line of
    three words or more: the status and the message of the error. *)
Definition rejection (P : platform) (version : string)
    : option (Z * string) :=
  match BaseHTTPRequestHandler.version_number version with
  | None =>
      Some (400%Z, ("Bad request version (" ++ repr_str P version ++ ")")%string)
  | Some (base_version_number, number) =>
      if BaseHTTPRequestHandler.pair_ge number (2, 0)%Z
      then Some (505%Z,
                 ("Invalid HTTP version (" ++ base_version_number ++ ")")%string)
      else None
  end.

(** What the clients were sent, one entry per connection, in the order of
    the trace. *)
Definition response_chunks (t : list Script.event) : list (list string) :=
  flat_map (fun ev => match ev with
                      | Script.Response chunks => [chunks]
                      | _ => []
                      end) t.

(** What the handler writes for each request that arrives before the
    first interrupt, in the order of arrival. *)
Fixpoint served (arrivals : list Script.arrival) : list (list string) :=
  match arrivals with
  | [] => []
  | Script.Request P command path version :: rest =>
      wfile (snd (Script.dispatch P
                    (Script.parsed_request command path version)))
      :: served rest
  | Script.Interrupt :: _ => []
  end.

(** How often the server socket was closed. *)
Definition server_closes (t : list Script.event) : nat :=
  List.length (filter (fun ev => match ev with
                                 | Script.ServerClose => true
                                 | _ => false
                                 end) t).

(* ================================================================== *)
(** * Properties *)

(** ** Strings *)

Section StringFacts.
Local Open Scope string_scope.

Lemma length_app (a b : string) :
  String.length (a ++ b) = String.length a + String.length b.
Proof. induction a as [|c a IH]; simpl; [reflexivity | now rewrite IH]. Qed.

Lemma append_assoc (a b c : string) : (a ++ b) ++ c = a ++ b ++ c.
Proof. induction a as [|x a IH]; simpl; [reflexivity | now rewrite IH]. Qed.

Lemma substring_all (s : string) : substring 0 (String.length s) s = s.
Proof. induction s as [|c s IH]; simpl; [reflexivity | now rewrite IH]. Qed.

Lemma substring_skip (p s : string) (n : nat) :
  substring (String.length p) n (p ++ s) = substring 0 n s.
Proof. induction p as [|c p IH]; simpl; [reflexivity | apply IH]. Qed.

Lemma substring_split (s : string) (n : nat) :
  n <= String.length s ->
  s = substring 0 n s ++ substring n (String.length s - n) s.
Proof.
  revert n; induction s as [|c s IH]; intros [|n] Hn; simpl in *;
    try reflexivity; try lia.
  - now rewrite substring_all.
  - f_equal. apply IH. lia.
Qed.

(** The last [len(t)] characters of [p + t] are [t]. *)
Lemma tail_slice (p t : string) :
  substring (String.length (p ++ t) - String.length t) (String.length t)
            (p ++ t) = t.
Proof.
  rewrite length_app.
  replace (String.length p + String.length t - String.length t)
    with (String.length p) by lia.
  now rewrite substring_skip, substring_all.
Qed.

Lemma endswith_app (p suffix : string) :
  PyStr.endswith (p ++ suffix) suffix = true.
Proof.
  unfold PyStr.endswith.
  rewrite tail_slice, String.eqb_refl, andb_true_r.
  apply Nat.leb_le. rewrite length_app. lia.
Qed.

Lemma endswith_inv (s suffix : string) :
  PyStr.endswith s suffix = true -> exists p, s = p ++ suffix.
Proof.
  unfold PyStr.endswith. intros H.
  apply andb_true_iff in H as [Hlen Heq].
  apply Nat.leb_le in Hlen. apply String.eqb_eq in Heq.
  set (k := String.length s - String.length suffix) in *.
  exists (substring 0 k s).
  assert (Hs : s = substring 0 k s ++ substring k (String.length s - k) s)
    by (apply substring_split; lia).
  replace (String.length s - k) with (String.length suffix) in Hs by lia.
  now rewrite Heq in Hs.
Qed.

(** A path that ends in another string of the same length does not end
    in [suffix]. *)
Lemma endswith_other (p t suffix : string) :
  String.length t = String.length suffix -> t <> suffix ->
  PyStr.endswith (p ++ t) suffix = false.
Proof.
  intros Hlen Hne. unfold PyStr.endswith.
  rewrite <- Hlen, tail_slice.
  apply String.eqb_neq in Hne. now rewrite Hne, andb_false_r.
Qed.

Lemma lower_length (s : string) :
  String.length (PyStr.lower s) = String.length s.
Proof. induction s as [|c s IH]; simpl; [reflexivity | now rewrite IH]. Qed.

(** Any other casing of a suffix: same letters up to case, not the
    same string. *)
Lemma endswith_other_casing (p t suffix : string) :
  PyStr.lower t = PyStr.lower suffix -> t <> suffix ->
  PyStr.endswith (p ++ t) suffix = false.
Proof.
  intros Hlow Hne. apply endswith_other; [|assumption].
  rewrite <- (lower_length t), Hlow. apply lower_length.
Qed.

End StringFacts.

(** ** Lines of text *)

Section Lines.
Local Open Scope string_scope.

Lemma no_lf_app (a b : string) : no_lf (a ++ b) = no_lf a && no_lf b.
Proof.
  induction a as [|c a IH]; simpl; [reflexivity|].
  now rewrite IH, andb_assoc.
Qed.

Lemma no_lf_uint (d : Decimal.uint) :
  no_lf (NilEmpty.string_of_uint d) = true.
Proof. induction d; simpl; auto. Qed.

Lemma no_lf_str_of_int (n : Z) : no_lf (PyStr.str_of_int n) = true.
Proof.
  unfold PyStr.str_of_int, NilZero.string_of_int, NilZero.string_of_uint.
  destruct (Z.to_int n) as [d|d]; destruct d; try reflexivity;
    apply no_lf_uint.
Qed.

Lemma no_lf_concat (ls : list string) :
  Forall (fun l => no_lf l = true) ls -> no_lf (String.concat "" ls) = true.
Proof.
  induction 1 as [|l ls Hl _ IH]; [reflexivity|].
  destruct ls as [|l' ls]; [exact Hl|].
  change (String.concat "" (l :: l' :: ls))
    with (l ++ "" ++ String.concat "" (l' :: ls)).
  now rewrite !no_lf_app, Hl, IH.
Qed.

Lemma no_lf_escape (quote c : ascii) :
  Ascii.eqb quote LF = false -> no_lf (PyStr.escape quote c) = true.
Proof.
  intros Hq. unfold PyStr.escape.
  destruct (Ascii.eqb c quote) eqn:Ec.
  - apply Ascii.eqb_eq in Ec. subst c. simpl. now rewrite Hq.
  - clear Ec Hq quote.
    destruct c as [[] [] [] [] [] [] [] []]; vm_compute; reflexivity.
Qed.

(** [repr] writes a line feed as an escape. *)
Lemma no_lf_repr (s : string) : no_lf (PyStr.repr s) = true.
Proof.
  unfold PyStr.repr.
  generalize (PyStr.contains PyStr.single_quote s
              && negb (PyStr.contains PyStr.double_quote s)).
  intros b.
  set (quote := if b then PyStr.double_quote else PyStr.single_quote).
  assert (Hq : Ascii.eqb quote LF = false)
    by (subst quote; destruct b; reflexivity).
  cbn [no_lf]. rewrite Hq, no_lf_app. cbn [no_lf]. rewrite Hq.
  cbn [negb andb]. rewrite andb_true_r. apply no_lf_concat.
  apply Forall_forall. intros l Hl.
  apply in_map_iff in Hl as (c & <- & _). now apply no_lf_escape.
Qed.

Lemma no_lf_remove_unsafe (s : string) :
  no_lf (PyStr.remove_unsafe s) = true.
Proof.
  unfold PyStr.remove_unsafe.
  induction (list_ascii_of_string s) as [|c l IH]; [reflexivity|].
  simpl. destruct (negb _) eqn:E; [|exact IH].
  simpl. rewrite IH, andb_true_r.
  destruct (Ascii.eqb c LF) eqn:Ec; [|reflexivity].
  apply Ascii.eqb_eq in Ec. subst c. discriminate E.
Qed.

Lemma split_crlf_cons (text : string) :
  exists l ls, split_crlf text = l :: ls.
Proof.
  induction text as [|c text (l & ls & E)]; simpl; [eauto|].
  rewrite E. destruct l as [|d l]; [eauto|].
  destruct (_ && _); eauto.
Qed.

(** A line without line feed, its line end, more text: the first line
    of the text is that line. *)
Lemma split_crlf_line (content rest : string) :
  no_lf content = true ->
  split_crlf (content ++ CRLF ++ rest) = content :: split_crlf rest.
Proof.
  induction content as [|c content IH]; intros H.
  - destruct (split_crlf_cons rest) as (l & ls & E).
    change ("" ++ CRLF ++ rest) with (String CR (String LF rest)).
    cbn [split_crlf]. rewrite E.
    destruct l as [|d l]; reflexivity.
  - simpl in H. apply andb_true_iff in H as [Hc H].
    change (String c content ++ CRLF ++ rest)
      with (String c (content ++ CRLF ++ rest)).
    cbn [split_crlf]. rewrite (IH H).
    destruct content as [|d content]; [reflexivity|].
    simpl in H. apply andb_true_iff in H as [Hd _].
    apply negb_true_iff in Hd. now rewrite Hd, andb_false_r.
Qed.

End Lines.

(** ** [guess_type] *)

Section GuessType.
Local Open Scope string_scope.

Variable super_guess_type : string -> result pyval.

Let guess_type := CustomHTTPRequestHandler.guess_type super_guess_type.

Lemma two_items_unpack (r : pyval) :
  two_items r = true <-> exists m e, unpack2 r = Return (m, e).
Proof.
  unfold two_items. destruct (unpack2 r) as [[m e]|x]; split.
  - intros _. now exists m, e.
  - reflexivity.
  - discriminate.
  - intros (m & e & H). discriminate.
Qed.

(** The exceptions of [a, b = v] are caught by [except Exception]. *)
Lemma unpack2_raises (r : pyval) :
  two_items r = false ->
  exists x, unpack2 r = Raise x /\ is_Exception x = true.
Proof.
  unfold two_items.
  destruct r as [|s|items]; simpl.
  - intros _. now exists TypeError.
  - destruct s as [|c1 [|c2 [|c3 s]]]; try discriminate;
      intros _; now exists ValueError.
  - destruct items as [|a [|b [|c items]]]; try discriminate;
      intros _; now exists ValueError.
Qed.

Lemma unpack2_long_str (s : string) :
  String.length s <> 2 -> unpack2 (PyStr s) = Raise ValueError.
Proof.
  destruct s as [|c1 [|c2 [|c3 s]]]; simpl; intros H;
    try reflexivity; contradiction H; reflexivity.
Qed.

Lemma guess_type_js (path : string) (r m e : pyval) :
  super_guess_type path = Return r ->
  unpack2 r = Return (m, e) ->
  PyStr.endswith path ".js" = true ->
  guess_type path = Return (PyStr "application/javascript").
Proof.
  intros Hs Hu Hjs. unfold guess_type, CustomHTTPRequestHandler.guess_type.
  rewrite Hs. cbn [Py.bind]. rewrite Hu. cbn [Py.bind]. now rewrite Hjs.
Qed.

Lemma guess_type_other (path : string) (r m e : pyval) :
  super_guess_type path = Return r ->
  unpack2 r = Return (m, e) ->
  PyStr.endswith path ".js" = false ->
  guess_type path = Return (PyTuple [m; e]).
Proof.
  intros Hs Hu Hjs. unfold guess_type, CustomHTTPRequestHandler.guess_type.
  rewrite Hs. cbn [Py.bind]. rewrite Hu. cbn [Py.bind]. now rewrite Hjs.
Qed.

Lemma guess_type_unpack_fails (path : string) (r : pyval) :
  super_guess_type path = Return r ->
  two_items r = false ->
  exists x, guess_type path = Raise x /\ unpack2 r = Raise x
            /\ is_Exception x = true.
Proof.
  intros Hs Hr. destruct (unpack2_raises r Hr) as (x & Hx & Hex).
  exists x. unfold guess_type, CustomHTTPRequestHandler.guess_type.
  rewrite Hs. cbn [Py.bind]. rewrite Hx. cbn [Py.bind]. auto.
Qed.

(** Whatever the superclass does, what [guess_type] raises is caught
    by [except Exception] when what the superclass raises is. *)
Lemma guess_type_raises_Exception (path : string) (x : exn) :
  (forall y, super_guess_type path = Raise y -> is_Exception y = true) ->
  guess_type path = Raise x -> is_Exception x = true.
Proof.
  intros Hsup. unfold guess_type, CustomHTTPRequestHandler.guess_type.
  destruct (super_guess_type path) as [r|y] eqn:Hs; cbn [Py.bind].
  - destruct (two_items r) eqn:Hr.
    + apply two_items_unpack in Hr as (m & e & Hu). rewrite Hu. cbn [Py.bind].
      destruct (PyStr.endswith path ".js"); discriminate.
    + destruct (unpack2_raises r Hr) as (z & Hz & Hex).
      rewrite Hz. cbn [Py.bind]. intros [= <-]. exact Hex.
  - intros [= <-]. now apply Hsup.
Qed.

End GuessType.

(** The superclass method returns one string, taken from the tables or
    the default. *)
Lemma base_guess_type_str (P : platform) (path : string) :
  exists s, SimpleHTTPRequestHandler.guess_type P path = Return (PyStr s)
    /\ ((exists ext, extensions_map P ext = Some s)
        \/ mimetypes_guess_type P path = Some s
        \/ s = "application/octet-stream"%string).
Proof.
  unfold SimpleHTTPRequestHandler.guess_type.
  destruct (PyStr.splitext path) as [b ext].
  destruct (extensions_map P ext) as [t|] eqn:H1.
  { exists t. split; [reflexivity | left; now exists ext]. }
  destruct (extensions_map P (PyStr.lower ext)) as [t|] eqn:H2.
  { exists t. split; [reflexivity | left; now exists (PyStr.lower ext)]. }
  destruct (mimetypes_guess_type P path) as [g|] eqn:H3.
  - destruct (g =? "")%string; simpl.
    + exists "application/octet-stream"%string. auto.
    + exists g. auto.
  - exists "application/octet-stream"%string. auto.
Qed.

(** On such a platform the assignment on line 30 raises for every path,
    before the suffix of the path is looked at. *)
Lemma guess_type_raises_on_mime_tables (P : platform) (path : string) :
  mime_tables P ->
  self_guess_type (CustomHTTPRequestHandler.class P) path = Raise ValueError.
Proof.
  intros [Hext Hmt]. simpl. unfold CustomHTTPRequestHandler.guess_type.
  destruct (base_guess_type_str P path) as (s & Hs & Hfrom).
  rewrite Hs. cbn [Py.bind].
  rewrite unpack2_long_str; [reflexivity|].
  destruct Hfrom as [[ext He] | [Hg | ->]].
  - eapply Hext; eassumption.
  - eapply Hmt; eassumption.
  - simpl. lia.
Qed.

(** The texts of the installation of the examples hold no line feed. *)
Lemma fixture_clean : clean_platform Fixture.cpython.
Proof.
  split; try reflexivity.
  - intros code short long. simpl. unfold Fixture.responses_table.
    repeat match goal with
           | |- context [if ?c then _ else _] => destruct c
           end; intros [= <- _]; reflexivity.
  - intros p. simpl. rewrite no_lf_app, no_lf_remove_unsafe. reflexivity.
  - intros path f. cbn [open_rb Fixture.cpython].
    destruct (Fixture.lookup path Fixture.files);
      intros [= <-]; reflexivity.
  - intros s. apply no_lf_repr.
Qed.

Lemma fixture_mime_tables : mime_tables Fixture.cpython.
Proof.
  split; simpl.
  - intros ext t. unfold Fixture.default_extensions_map.
    repeat match goal with
           | |- context [if ?b then _ else _] => destruct b
           end; intros [= <-]; simpl; lia.
  - intros p t. unfold Fixture.types_map_guess.
    repeat match goal with
           | |- context [if ?b then _ else _] => destruct b
           end; intros [= <-]; simpl; lia.
Qed.

(** ** Headers *)

Section HandlerFacts.
Import BaseHTTPRequestHandler.

Lemma mbind_return {A B} (m : M A) (k : A -> M B) h a h1 :
  m h = (Return a, h1) -> mbind m k h = k a h1.
Proof. unfold mbind. now intros ->. Qed.

Lemma mbind_raise {A B} (m : M A) (k : A -> M B) h e h1 :
  m h = (Raise e, h1) -> mbind m k h = (Raise e, h1).
Proof. unfold mbind. now intros ->. Qed.

Lemma buffered_append line h :
  buffered (buffer_append line h) = buffered h ++ [line].
Proof. unfold buffered, buffer_append. now destruct (headers_buffer h). Qed.

Lemma buffer_append_some line h :
  headers_buffer (buffer_append line h) = Some (buffered h ++ [line]).
Proof. unfold buffered, buffer_append. now destruct (headers_buffer h). Qed.

Lemma version_buffer_append line h :
  request_version (buffer_append line h) = request_version h.
Proof. unfold buffer_append. now destruct (headers_buffer h). Qed.

(** A header other than [Connection] only reaches the buffer. *)
Lemma send_header_plain (keyword value : string) (h : handler) :
  (PyStr.lower keyword =? "connection")%string = false ->
  send_header keyword value h =
    (Return tt,
     if version_0_9 h then h
     else buffer_append (keyword ++ ": " ++ value ++ CRLF)%string h).
Proof.
  intros Hk. unfold send_header, mbind, version_0_9.
  destruct (request_version h =? "HTTP/0.9")%string; simpl;
    unfold update, ret; now rewrite Hk.
Qed.

(** For an HTTP/0.9 request the override sends nothing at all. *)
Lemma end_headers_0_9 (h : handler) :
  version_0_9 h = true ->
  CustomHTTPRequestHandler.end_headers h = (Return tt, h).
Proof.
  intros Hv. unfold CustomHTTPRequestHandler.end_headers.
  repeat (erewrite mbind_return
            by (rewrite send_header_plain by reflexivity;
                rewrite Hv; reflexivity)).
  unfold end_headers. unfold version_0_9 in Hv. now rewrite Hv.
Qed.

Lemma fields_buffer_append line h :
  request_version (buffer_append line h) = request_version h
  /\ command (buffer_append line h) = command h
  /\ self_path (buffer_append line h) = self_path h
  /\ wfile (buffer_append line h) = wfile h
  /\ close_connection (buffer_append line h) = close_connection h.
Proof. unfold buffer_append. now destruct (headers_buffer h). Qed.

Lemma version_0_9_append line h :
  version_0_9 (buffer_append line h) = version_0_9 h.
Proof. unfold version_0_9. now rewrite version_buffer_append. Qed.

(** [end_headers] of the base class on a buffer that exists. *)
Lemma base_end_headers_flush (h : handler) :
  version_0_9 h = false -> headers_buffer h <> None ->
  end_headers h =
    (Return tt,
     mkHandler (request_version h) (command h) (self_path h) (Some [])
               (wfile h ++ [String.concat "" (buffered h ++ [CRLF])])
               (close_connection h)).
Proof.
  unfold version_0_9, end_headers, buffered. intros Hv Hb.
  rewrite Hv. simpl.
  destruct h as [v c p [b|] w cc]; [reflexivity | now contradiction Hb].
Qed.

(** Otherwise it appends the three lines and the blank line to what is
    buffered and writes the block out in one piece. *)
Lemma end_headers_block (h : handler) :
  version_0_9 h = false ->
  CustomHTTPRequestHandler.end_headers h =
    (Return tt,
     mkHandler (request_version h) (command h) (self_path h) (Some [])
               (wfile h ++ [String.concat ""
                              (buffered h ++ cors_headers ++ [CRLF])])
               (close_connection h)).
Proof.
  intros Hv. unfold CustomHTTPRequestHandler.end_headers.
  repeat (erewrite mbind_return
            by (rewrite send_header_plain by reflexivity;
                rewrite ?version_0_9_append, Hv; reflexivity)).
  rewrite base_end_headers_flush.
  - repeat match goal with
           | |- context [buffer_append ?l ?x] =>
               destruct (fields_buffer_append l x) as (-> & -> & -> & -> & ->)
           end.
    rewrite !buffered_append. unfold cors_headers.
    rewrite <- !app_assoc. reflexivity.
  - now rewrite !version_0_9_append.
  - rewrite buffer_append_some. discriminate.
Qed.

(** Each of the three lines is in the block once more than it was in
    the buffer. *)
Lemma cors_count (b : list string) (l : string) :
  In l cors_headers ->
  count_occ string_dec (b ++ cors_headers ++ [CRLF]) l
  = S (count_occ string_dec b l).
Proof.
  intros Hl. rewrite count_occ_app.
  assert (count_occ string_dec (cors_headers ++ [CRLF]) l = 1) as ->.
  { destruct Hl as [<-|[<-|[<-|[]]]]; vm_compute; reflexivity. }
  lia.
Qed.

End HandlerFacts.

(** ** What a method can raise *)

Create HintDb safe.

Section Safe.
Import BaseHTTPRequestHandler.

Lemma safe_ret {A} (a : A) : safe (ret a).
Proof. intros h e h'. discriminate. Qed.

Lemma safe_update f : safe (update f).
Proof. intros h e h'. discriminate. Qed.

Lemma safe_throw {A} (e : exn) :
  is_Exception e = true -> safe (@throw A e).
Proof. intros He h x h' [= <- _]. exact He. Qed.

Lemma safe_lift {A} (r : result A) :
  (forall e, r = Raise e -> is_Exception e = true) -> safe (lift r).
Proof. intros Hr h e h' [= -> _]. now apply Hr. Qed.

Lemma safe_mbind {A B} (m : M A) (k : A -> M B) :
  safe m -> (forall a, safe (k a)) -> safe (mbind m k).
Proof.
  intros Hm Hk h e h' H. unfold mbind in H.
  destruct (m h) as [[a|x] h1] eqn:E.
  - eapply Hk; eassumption.
  - injection H as <- <-. eapply Hm; eassumption.
Qed.

Lemma safe_send_response_only P code message :
  safe (send_response_only P code message).
Proof.
  intros h e h'. unfold send_response_only.
  destruct (negb _); discriminate.
Qed.

Lemma safe_send_header keyword value : safe (send_header keyword value).
Proof.
  unfold send_header. apply safe_mbind.
  - intros h e h'. destruct (negb _); discriminate.
  - intros _. repeat match goal with
                     | |- safe (if ?c then _ else _) => destruct c
                     end; auto using safe_update, safe_ret.
Qed.

Lemma safe_custom_end_headers : safe CustomHTTPRequestHandler.end_headers.
Proof.
  intros h e h'. destruct (version_0_9 h) eqn:Hv.
  - rewrite end_headers_0_9 by assumption. discriminate.
  - rewrite end_headers_block by assumption. discriminate.
Qed.

Hint Resolve safe_ret safe_update safe_send_response_only
  safe_send_header safe_custom_end_headers : safe.

Ltac safe_steps :=
  repeat first
    [ solve [auto with safe]
    | apply safe_throw; reflexivity
    | apply safe_mbind; [|intros ?]
    | match goal with
      | |- safe (if ?c then _ else _) => destruct c
      | |- safe (match ?x with Some _ => _ | None => _ end) => destruct x
      end ].

Ltac by_safe tac :=
  match goal with
  | |- ?m ?x = (Raise _, _) -> _ =>
      let S := fresh "S" in
      assert (S : safe m) by tac; exact (S _ _ _)
  end.

Lemma safe_send_response P code message :
  safe (send_response P code message).
Proof. unfold send_response. safe_steps. Qed.
Hint Resolve safe_send_response : safe.

Section Class.
Variable self : handler_class.
Variable P : platform.
Hypothesis safe_self_end_headers : safe (self_end_headers self).
Hypothesis safe_self_guess_type :
  forall path e, self_guess_type self path = Raise e ->
                 is_Exception e = true.

Lemma safe_send_error code message explain :
  safe (send_error self P code message explain).
Proof.
  unfold send_error. destruct (match responses P code with
                               | Some sl => sl
                               | None => _
                               end) as [shortmsg longmsg].
  safe_steps.
  intros h e h'.
  repeat match goal with
         | |- context [match ?x with Some _ => _ | None => _ end] =>
             destruct x
         | |- context [if ?c then _ else _] => destruct c
         end; discriminate.
Qed.
Hint Resolve safe_send_error : safe.

Lemma safe_list_directory path :
  safe (SimpleHTTPRequestHandler.list_directory self P path).
Proof.
  intros h e h'. unfold SimpleHTTPRequestHandler.list_directory.
  destruct (listdir_page P path (self_path h)); by_safe safe_steps.
Qed.

Lemma safe_send_head_file path :
  safe (SimpleHTTPRequestHandler.send_head_file self P path).
Proof.
  unfold SimpleHTTPRequestHandler.send_head_file.
  apply safe_mbind.
  - apply safe_lift. apply safe_self_guess_type.
  - intros ctype. safe_steps.
Qed.

Lemma safe_send_head :
  safe (SimpleHTTPRequestHandler.send_head self P).
Proof.
  intros h e h'. unfold SimpleHTTPRequestHandler.send_head.
  repeat match goal with
         | |- context [if ?c then _ else _] => destruct c
         end;
    by_safe ltac:(first [ apply safe_list_directory
                        | apply safe_send_head_file
                        | safe_steps ]).
Qed.

Lemma safe_do_GET : safe (SimpleHTTPRequestHandler.do_GET self P).
Proof.
  unfold SimpleHTTPRequestHandler.do_GET.
  apply safe_mbind; [apply safe_send_head|]. intros [f|]; auto with safe.
Qed.

Lemma safe_do_HEAD : safe (SimpleHTTPRequestHandler.do_HEAD self P).
Proof.
  unfold SimpleHTTPRequestHandler.do_HEAD.
  apply safe_mbind; [apply safe_send_head|]. auto with safe.
Qed.

End Class.

(** No request makes the handler of [serve.py] raise anything that
    [except Exception] lets through. *)
Lemma safe_dispatch (P : platform) : safe (Script.dispatch P).
Proof.
  assert (Hg : forall path e,
             self_guess_type (CustomHTTPRequestHandler.class P) path
             = Raise e -> is_Exception e = true).
  { intros path e. simpl. apply guess_type_raises_Exception.
    intros y Hy. destruct (base_guess_type_str P path) as (s & Hs & _).
    congruence. }
  intros h e h'. unfold Script.dispatch.
  destruct (command h) as [c|]; [|discriminate].
  unfold CustomHTTPRequestHandler.do_GET, CustomHTTPRequestHandler.do_HEAD,
    CustomHTTPRequestHandler.send_error.
  destruct (c =? "GET")%string; [|destruct (c =? "HEAD")%string].
  - apply safe_do_GET; [apply safe_custom_end_headers | exact Hg].
  - apply safe_do_HEAD; [apply safe_custom_end_headers | exact Hg].
  - apply safe_send_error. apply safe_custom_end_headers.
Qed.

End Safe.

(** ** Every response passes through [end_headers] *)

Section Answers.
Import BaseHTTPRequestHandler.

Variable P : platform.
Hypothesis HP : clean_platform P.

Lemma base_line_intro (c : ascii) (s : string) :
  c <> "A"%char -> no_lf (String c s) = true ->
  base_line (String c s ++ CRLF)%string.
Proof.
  intros Hc Hs. exists (String c s). repeat split; [exact Hs|].
  intros [H|[H|[H|[]]]]; injection H as H _; congruence.
Qed.

Lemma buffers_refl h : buffers h h [].
Proof. split; auto using app_nil_r. Qed.

Lemma buffers_trans h1 h2 h3 l1 l2 :
  buffers h1 h2 l1 -> buffers h2 h3 l2 -> buffers h1 h3 (l1 ++ l2).
Proof.
  intros [B1 W1 V1 F1] [B2 W2 V2 F2]. split.
  - now rewrite B2, B1, app_assoc.
  - congruence.
  - congruence.
  - apply Forall_app; auto.
Qed.

Lemma buffers_append line h :
  base_line line -> buffers h (buffer_append line h) [line].
Proof.
  intros Hl. destruct (fields_buffer_append line h) as (V & _ & _ & W & _).
  split; auto using buffered_append.
  unfold version_0_9. now rewrite V.
Qed.

Lemma buffers_close c h : buffers h (set_close_connection c h) [].
Proof. split; auto using app_nil_r. Qed.

Lemma builds_ret {A} (a : A) : builds (ret a).
Proof. intros h _. exists a, h, []. auto using buffers_refl. Qed.

Lemma builds_mbind {A B} (m : M A) (k : A -> M B) :
  builds m -> (forall a, builds (k a)) -> builds (mbind m k).
Proof.
  intros Hm Hk h Hv.
  destruct (Hm h Hv) as (a & h1 & l1 & E1 & B1).
  assert (Hv1 : version_0_9 h1 = false)
    by (rewrite (buffers_version _ _ _ B1); exact Hv).
  destruct (Hk a h1 Hv1) as (b & h2 & l2 & E2 & B2).
  exists b, h2, (l1 ++ l2). split.
  - now rewrite (mbind_return _ _ _ _ _ E1).
  - eapply buffers_trans; eassumption.
Qed.

(** The reason phrase that [send_response_only] looks up holds no line
    feed. *)
Lemma no_lf_reason (code : Z) :
  no_lf match responses P code with
        | Some (short, _) => short
        | None => ""%string
        end = true.
Proof.
  destruct (responses P code) as [[short long]|] eqn:E; [|reflexivity].
  exact (clean_responses P HP code short long E).
Qed.

(** The status line: it starts with the protocol version. *)
Lemma builds_send_response_only code message :
  (forall m, message = Some m -> no_lf m = true) ->
  builds (send_response_only P code message).
Proof.
  intros Hm h Hv. unfold send_response_only.
  unfold version_0_9 in Hv. rewrite Hv. simpl negb. cbv iota.
  eexists tt, _, _. split; [reflexivity|].
  apply buffers_append.
  set (msg := match message with Some m => m | None => _ end).
  assert (Hmsg : no_lf msg = true).
  { subst msg. destruct message as [m|]; [now apply Hm | apply no_lf_reason]. }
  replace (protocol_version ++ " " ++ PyStr.str_of_int code ++ " "
           ++ msg ++ CRLF)%string
    with (("HTTP/1.0 " ++ PyStr.str_of_int code ++ " " ++ msg)
          ++ CRLF)%string
    by (unfold protocol_version; simpl; now rewrite !append_assoc).
  apply base_line_intro; [discriminate|].
  change (no_lf ("HTTP/1.0 " ++ PyStr.str_of_int code ++ " " ++ msg)%string
          = true).
  now rewrite !no_lf_app, no_lf_str_of_int, Hmsg.
Qed.

(** A header of the base class: its name does not start with [A]. *)
Lemma builds_send_header (c : ascii) (k value : string) :
  c <> "A"%char -> no_lf (String c k) = true -> no_lf value = true ->
  builds (send_header (String c k) value).
Proof.
  intros Hc Hk Hval. unfold send_header. apply builds_mbind.
  - intros h Hv. unfold version_0_9 in Hv. rewrite Hv. simpl negb. cbv iota.
    eexists tt, _, _. split; [reflexivity|].
    apply buffers_append.
    replace (String c k ++ ": " ++ value ++ CRLF)%string
      with (String c (k ++ ": " ++ value) ++ CRLF)%string
      by (simpl; now rewrite !append_assoc).
    apply base_line_intro; [exact Hc|].
    change (no_lf (String c k ++ ": " ++ value)%string = true).
    now rewrite !no_lf_app, Hk, Hval.
  - intros _.
    repeat match goal with
           | |- builds (if ?b then _ else _) => destruct b
           end; try apply builds_ret;
      intros h Hv; eexists tt, _, []; (split; [reflexivity|]);
      apply buffers_close.
Qed.

Lemma builds_send_response code message :
  (forall m, message = Some m -> no_lf m = true) ->
  builds (send_response P code message).
Proof.
  intros Hm. unfold send_response.
  apply builds_mbind; [now apply builds_send_response_only | intros _].
  apply builds_mbind; [|intros _];
    (apply builds_send_header; [discriminate | reflexivity |]).
  - exact (clean_version_string P HP).
  - exact (clean_date_time_string P HP).
Qed.

Lemma writes_ret {A} (a : A) : writes (ret a).
Proof. intros h. exists a, h, []. now rewrite app_nil_r. Qed.

Lemma writes_wfile_write data : writes (update (wfile_write data)).
Proof. intros h. now exists tt, (wfile_write data h), [data]. Qed.

(** The override, then only writes: one block, closed by the three
    lines and the blank line. *)
Lemma answers_end_headers {A} (tail : M A) :
  writes tail ->
  answers (mbind CustomHTTPRequestHandler.end_headers (fun _ => tail)).
Proof.
  intros Ht h Hv r h' E.
  rewrite (mbind_return _ _ _ _ _ (end_headers_block h Hv)) in E.
  destruct (Ht (mkHandler (request_version h) (command h) (self_path h)
                  (Some [])
                  (wfile h ++ [String.concat ""
                                 (buffered h ++ cors_headers ++ [CRLF])])
                  (close_connection h)))
    as (a & h2 & rest & E2 & W2).
  rewrite E2 in E. injection E as <- <-.
  exists [], rest. split; [|constructor].
  rewrite W2. simpl. now rewrite <- app_assoc.
Qed.

Lemma answers_mbind {A B} (m : M A) (k : A -> M B) :
  builds m -> (forall a, answers (k a)) -> answers (mbind m k).
Proof.
  intros Hm Hk h Hv r h' E.
  destruct (Hm h Hv) as (a & h1 & l1 & E1 & [B1 W1 V1 F1]).
  rewrite (mbind_return _ _ _ _ _ E1) in E.
  assert (Hv1 : version_0_9 h1 = false) by congruence.
  specialize (Hk a h1 Hv1 r h' E).
  destruct r as [b|e].
  - destruct Hk as (base & rest & W & F).
    exists (l1 ++ base), rest. split.
    + rewrite W, W1, B1. now rewrite <- !app_assoc.
    + apply Forall_app; auto.
  - now rewrite <- W1.
Qed.

(** A value computed outside the handler: what follows runs on the
    value that was returned. *)
Lemma answers_lift {A B} (r : result A) (k : A -> M B) :
  (forall e, r = Raise e -> is_Exception e = true) ->
  (forall a, r = Return a -> answers (k a)) -> answers (mbind (lift r) k).
Proof.
  intros Hr Hk h Hv r' h' E. unfold mbind, lift in E.
  destruct r as [a|e].
  - exact (Hk a eq_refl h Hv r' h' E).
  - injection E as <- <-. auto.
Qed.

Lemma answers_throw {A} (e : exn) :
  is_Exception e = true -> answers (@throw A e).
Proof. intros He h _ r h' [= <- <-]. auto. Qed.

Lemma answers_then_writes {A B} (m : M A) (k : A -> M B) :
  answers m -> (forall a, writes (k a)) -> answers (mbind m k).
Proof.
  intros Hm Hk h Hv r h' E. unfold mbind in E.
  destruct (m h) as [[a|e] h1] eqn:E1.
  - destruct (Hm h Hv _ _ E1) as (base & rest & W & F).
    destruct (Hk a h1) as (b & h2 & rest2 & E2 & W2).
    rewrite E2 in E. injection E as <- <-.
    exists base, (rest ++ rest2). split; [|exact F].
    rewrite W2, W. now rewrite <- app_assoc.
  - injection E as <- <-. exact (Hm h Hv _ _ E1).
Qed.

End Answers.

Section AnswersOfTheHandler.
Import BaseHTTPRequestHandler.

Variable P : platform.
Hypothesis HP : clean_platform P.
Let self := CustomHTTPRequestHandler.class P.

(** The texts that go into header values hold no line feed. *)
Ltac clean :=
  repeat (rewrite no_lf_app; apply andb_true_intro; split);
  first [ reflexivity
        | assumption
        | apply no_lf_str_of_int
        | apply (clean_version_string P HP)
        | apply (clean_date_time_string P HP)
        | apply (clean_redirect_url P HP)
        | apply (clean_fs_encoding P HP)
        | apply (clean_repr_str P HP)
        | eapply (clean_last_modified P HP); eassumption ].

Ltac builds_steps :=
  repeat first
    [ apply builds_ret
    | apply (builds_send_response P HP);
      let m := fresh "m" in intros m [= <-]; solve [clean]
    | apply builds_send_header; [discriminate | reflexivity | solve [clean]]
    | match goal with
      | |- builds (if ?c then _ else _) => destruct c
      end
    | apply builds_mbind; [|intros ?] ].

Ltac answers_steps :=
  repeat first
    [ apply answers_end_headers;
      first [ apply writes_ret | apply writes_wfile_write ]
    | apply answers_mbind; [solve [builds_steps] | intros ?] ].

Lemma writes_error_body (body : option string) :
  writes (fun h =>
            match body with
            | Some b =>
                if negb (match command h with
                         | Some c => (c =? "HEAD")%string
                         | None => false
                         end)
                   && negb (b =? "")%string
                then update (wfile_write b) h
                else ret tt h
            | None => ret tt h
            end).
Proof.
  intros h. destruct body as [b|]; [|apply writes_ret].
  destruct (negb _ && negb _);
    [apply writes_wfile_write | apply writes_ret].
Qed.

Lemma answers_send_error code message explain :
  (forall m, message = Some m -> no_lf m = true) ->
  answers (send_error self P code message explain).
Proof.
  intros Hm. unfold send_error.
  destruct (match responses P code with
            | Some sl => sl
            | None => _
            end) as [shortmsg longmsg] eqn:Er.
  assert (Hs : no_lf match message with Some m => m | None => shortmsg end
               = true).
  { destruct message as [m|]; [now apply Hm|].
    destruct (responses P code) as [[short long]|] eqn:E.
    - injection Er as <- _. exact (clean_responses P HP code _ _ E).
    - now injection Er as <- _. }
  apply answers_mbind; [builds_steps | intros _].
  apply answers_mbind; [builds_steps | intros _].
  apply answers_mbind; [builds_steps | intros body].
  apply answers_end_headers. apply writes_error_body.
Qed.

Ltac answers_error :=
  apply answers_then_writes;
  [ apply answers_send_error;
    let m := fresh "m" in intros m [= <-]; solve [clean]
  | intros _; apply writes_ret ].

Ltac by_answers tac :=
  match goal with
  | |- forall r h', ?m ?x = (r, h') -> _ =>
      let S := fresh "S" in
      assert (S : answers m) by tac;
      apply S; assumption
  end.

Lemma answers_list_directory path :
  answers (SimpleHTTPRequestHandler.list_directory self P path).
Proof.
  intros h Hv. unfold SimpleHTTPRequestHandler.list_directory.
  destruct (listdir_page P path (self_path h)).
  - by_answers answers_error.
  - by_answers ltac:(apply answers_throw; reflexivity).
  - by_answers answers_steps.
Qed.

(** What [guess_type] of [serve.py] returns, when it returns, is written
    into the header as one line. *)
Lemma no_lf_ctype (path : string) (ctype : pyval) :
  self_guess_type self path = Return ctype ->
  no_lf (py_str (repr_str P) ctype) = true.
Proof.
  simpl. unfold CustomHTTPRequestHandler.guess_type.
  destruct (base_guess_type_str P path) as (s & Hs & _).
  rewrite Hs. cbn [Py.bind].
  destruct s as [|c1 [|c2 [|c3 s]]]; cbn [unpack2 Py.bind];
    try discriminate.
  destruct (PyStr.endswith path ".js"); intros [= <-]; [reflexivity|].
  cbn. clean.
Qed.

Lemma answers_send_head_file path :
  answers (SimpleHTTPRequestHandler.send_head_file self P path).
Proof.
  unfold SimpleHTTPRequestHandler.send_head_file.
  apply answers_lift.
  - intros e. simpl. apply guess_type_raises_Exception.
    intros y Hy. destruct (base_guess_type_str P path) as (s & Hs & _).
    congruence.
  - intros ctype Hctype. apply no_lf_ctype in Hctype.
    destruct (PyStr.endswith path "/");
      [|destruct (open_rb P path) as [f|] eqn:Ef;
        [destruct (use_browser_cache P f)|]];
      try answers_error; answers_steps.
Qed.

Lemma answers_send_head :
  answers (SimpleHTTPRequestHandler.send_head self P).
Proof.
  intros h Hv. unfold SimpleHTTPRequestHandler.send_head.
  repeat match goal with
         | |- context [if ?c then _ else _] => destruct c
         end;
    by_answers ltac:(first [ apply answers_list_directory
                           | apply answers_send_head_file
                           | answers_steps ]).
Qed.

Lemma answers_do_GET : answers (CustomHTTPRequestHandler.do_GET P).
Proof.
  apply answers_then_writes; [apply answers_send_head|].
  intros [f|]; [apply writes_wfile_write | apply writes_ret].
Qed.

Lemma answers_do_HEAD : answers (CustomHTTPRequestHandler.do_HEAD P).
Proof.
  apply answers_then_writes; [apply answers_send_head|].
  intros _. apply writes_ret.
Qed.

(** Every request with a method is answered by one header block that
    closes with the three lines, unless the handler raises, and then
    nothing was sent. *)
Lemma answers_dispatch (h : handler) (r : result unit) (h' : handler) :
  version_0_9 h = false -> command h <> None ->
  Script.dispatch P h = (r, h') ->
  match r with
  | Return _ => answered h h'
  | Raise e => is_Exception e = true /\ wfile h' = wfile h
  end.
Proof.
  intros Hv Hc. unfold Script.dispatch.
  destruct (command h) as [c|]; [|now contradiction Hc].
  destruct (c =? "GET")%string; [|destruct (c =? "HEAD")%string].
  - now apply answers_do_GET.
  - now apply answers_do_HEAD.
  - assert (Hm : no_lf ("Unsupported method (" ++ repr_str P c ++ ")")%string
                 = true) by clean.
    apply answers_send_error; [|exact Hv].
    intros m [= <-]. exact Hm.
Qed.

End AnswersOfTheHandler.

(** ** The script *)

Section ScriptFacts.
Import Script.
Local Open Scope string_scope.

(** A request never ends the loop. *)
Lemma handle_request_normal (Pf : platform) (h : handler) (t : list event) :
  exists evs, handle_request Pf h t = (Normal tt, (t ++ evs)%list)
              /\ Forall serving_event evs.
Proof.
  unfold handle_request.
  destruct (dispatch Pf h) as [[[]|e] h'] eqn:E.
  - exists [Response (wfile h')]. split; [reflexivity|].
    repeat constructor.
  - rewrite (safe_dispatch Pf h e h' E).
    exists [Response (wfile h'); Stderr traceback]. split.
    + unfold pbind, emit. now rewrite <- app_assoc.
    + repeat constructor.
Qed.

(** The loop ends with the first interrupt and not otherwise. *)
Lemma serve_loop_spec (arrivals : list arrival) (t : list event) :
  exists evs,
    Forall serving_event evs
    /\ serve_loop arrivals t =
         (if existsb is_Interrupt arrivals
          then Exc KeyboardInterrupt else Forever,
          (t ++ evs)%list).
Proof.
  revert t. induction arrivals as [|[Pf c p v|] rest IH]; intros t; simpl.
  - exists []. rewrite app_nil_r. split; [constructor | reflexivity].
  - destruct (handle_request_normal Pf (parsed_request c p v) t)
      as (e1 & E1 & F1).
    destruct (IH (t ++ e1)%list) as (e2 & F2 & E2).
    exists (e1 ++ e2)%list. split; [now apply Forall_app|].
    unfold pbind. rewrite E1, E2. now rewrite app_assoc.
  - exists []. rewrite app_nil_r. split; [constructor | reflexivity].
Qed.

Lemma run_chdir_fails (env : environment) :
  chdir_fails env = true -> run env = ([Stderr traceback], Exited 1).
Proof. intros H. unfold run, main, chdir, pbind. now rewrite H. Qed.

Lemma run_bind_fails (env : environment) :
  chdir_fails env = false -> bind_fails env = true ->
  run env = ([Chdir (project_root (abspath_file env)); Bind "" 8000;
              ServerClose; Stderr traceback], Exited 1).
Proof.
  intros H1 H2.
  unfold run, main, chdir, with_server, TCPServer, pbind, emit, raise.
  now rewrite H1, H2.
Qed.

(** A run in which the socket was bound: the trace up to the accept
    loop, what the loop added, and how it ended. *)
Lemma run_started (env : environment) :
  chdir_fails env = false -> bind_fails env = false ->
  exists evs,
    Forall serving_event evs
    /\ run env =
         if existsb is_Interrupt (incoming env)
         then ((startup env ++ evs) ++ [stop_notice; ServerClose],
               Exited 0)%list
         else ((startup env ++ evs)%list, Running).
Proof.
  intros H1 H2.
  destruct (serve_loop_spec (incoming env) (startup env)) as (evs & F & E).
  exists evs. split; [exact F|].
  unfold run, main, chdir, with_server, TCPServer,
    try_except_KeyboardInterrupt, serve_forever, print, sys_exit,
    pbind, emit, raise, pret.
  rewrite H1, H2. cbn [app].
  change ([Chdir (project_root (abspath_file env)); Bind "" PORT;
           Stdout (("Serving at " ++ url) ++ String LF "");
           Stdout ("Examples available at:" ++ String LF "");
           Stdout (("  " ++ url ++ "/examples/basic-usage-simple.html")
                   ++ String LF "");
           Stdout (("  " ++ url ++ "/examples/basic-usage.html")
                   ++ String LF "");
           Stdout (String LF "Press Ctrl+C to stop the server"
                   ++ String LF "");
           Accepting]) with (startup env).
  rewrite E.
  destruct (existsb is_Interrupt (incoming env)); cbv beta iota;
    rewrite <- ?(app_assoc (startup env ++ evs)); reflexivity.
Qed.

End ScriptFacts.

(** ** [os.path.dirname] and the project root *)

Section Dirname.
Local Open Scope string_scope.

Lemma list_ascii_app (a b : string) :
  list_ascii_of_string (a ++ b)
  = (list_ascii_of_string a ++ list_ascii_of_string b)%list.
Proof. induction a as [|c a IH]; simpl; [reflexivity | now rewrite IH]. Qed.

Lemma drop_until_prefix (l rest : list ascii) :
  forallb (fun x => negb (Ascii.eqb x "/"%char)) l = true ->
  PyStr.drop_until "/"%char (l ++ "/"%char :: rest) = "/"%char :: rest.
Proof.
  induction l as [|x l IH]; simpl; [reflexivity|].
  intros H. apply andb_true_iff in H as [Hx Hl].
  apply negb_true_iff in Hx. rewrite Hx. now apply IH.
Qed.

Lemma forallb_rev {A} (f : A -> bool) (l : list A) :
  forallb f (rev l) = forallb f l.
Proof.
  induction l as [|x l IH]; simpl; [reflexivity|].
  rewrite forallb_app, IH. simpl. rewrite andb_true_r. apply andb_comm.
Qed.

Lemma rev_join (root name : string) :
  rev (list_ascii_of_string (root ++ "/" ++ name))
  = (rev (list_ascii_of_string name)
     ++ "/"%char :: rev (list_ascii_of_string root))%list.
Proof.
  rewrite list_ascii_app. simpl.
  rewrite rev_app_distr. simpl. now rewrite <- app_assoc.
Qed.

(** The directory of [root/name], for a [root] that does not end in a
    separator. *)
Lemma dirname_join (root name : string) :
  ends_in_name root = true -> no_sep name = true ->
  PyStr.dirname (root ++ "/" ++ name) = root.
Proof.
  unfold ends_in_name, no_sep, PyStr.dirname. intros Hr Hn.
  rewrite rev_join.
  rewrite drop_until_prefix by (rewrite forallb_rev; exact Hn).
  destruct (rev (list_ascii_of_string root)) as [|c X] eqn:ER;
    [discriminate|].
  apply negb_true_iff in Hr.
  unfold PyStr.all_sep. cbn [forallb PyStr.lstrip_list].
  rewrite Hr. cbn [Ascii.eqb Bool.eqb andb].
  rewrite <- ER, rev_involutive. apply string_of_list_ascii_of_string.
Qed.

(** [root/name] ends in a name when [name] is a component. *)
Lemma ends_in_name_join (root name : string) :
  no_sep name = true -> name <> "" ->
  ends_in_name (root ++ "/" ++ name) = true.
Proof.
  unfold ends_in_name, no_sep. intros Hn Hne. rewrite rev_join.
  rewrite <- forallb_rev in Hn.
  destruct (rev (list_ascii_of_string name)) as [|c X] eqn:EN.
  - destruct name; [now contradiction Hne|].
    apply (f_equal (@List.length ascii)) in EN.
    rewrite length_rev in EN. discriminate.
  - simpl in *. now apply andb_true_iff in Hn as [-> _].
Qed.

(** For a script at [root/dir/file] the project root is [root]. *)
Lemma project_root_layout (root dir file : string) :
  ends_in_name root = true ->
  no_sep dir = true -> dir <> "" -> no_sep file = true ->
  Script.project_root (root ++ "/" ++ dir ++ "/" ++ file) = root.
Proof.
  intros Hr Hd Hne Hf. unfold Script.project_root.
  replace (root ++ "/" ++ dir ++ "/" ++ file)
    with ((root ++ "/" ++ dir) ++ "/" ++ file).
  - rewrite dirname_join by auto using ends_in_name_join.
    now apply dirname_join.
  - now rewrite append_assoc.
Qed.

End Dirname.

(** ** Requests for files *)

Section FileRequests.

Variable P : platform.
Hypothesis tables : mime_tables P.

(** A path that is not a directory reaches line 30 of [serve.py]
    before anything is sent, and the handler raises there. *)
Lemma send_head_not_dir (h : handler) :
  isdir P (translate_path P (self_path h)) = false ->
  CustomHTTPRequestHandler.send_head P h = (Raise ValueError, h).
Proof.
  intros Hd.
  unfold CustomHTTPRequestHandler.send_head,
    SimpleHTTPRequestHandler.send_head.
  rewrite Hd. unfold SimpleHTTPRequestHandler.send_head_file.
  apply mbind_raise. unfold lift.
  now rewrite guess_type_raises_on_mime_tables.
Qed.

Lemma dispatch_GET_not_dir (h : handler) :
  command h = Some "GET"%string ->
  isdir P (translate_path P (self_path h)) = false ->
  Script.dispatch P h = (Raise ValueError, h).
Proof.
  intros Hc Hd. unfold Script.dispatch. rewrite Hc. simpl.
  unfold CustomHTTPRequestHandler.do_GET, SimpleHTTPRequestHandler.do_GET.
  apply mbind_raise. now apply send_head_not_dir.
Qed.

End FileRequests.

(** ** Header blocks as text *)

Section Blocks.
Local Open Scope string_scope.

Lemma append_nil_r (s : string) : s ++ "" = s.
Proof. induction s as [|c s IH]; simpl; [reflexivity | now rewrite IH]. Qed.

Lemma concat_cons (x : string) (xs : list string) :
  String.concat "" (x :: xs) = x ++ String.concat "" xs.
Proof. destruct xs; simpl; [now rewrite append_nil_r | reflexivity]. Qed.

Lemma concat_app (a b : list string) :
  String.concat "" (a ++ b)%list = String.concat "" a ++ String.concat "" b.
Proof.
  induction a as [|x a IH]; [reflexivity|].
  rewrite <- app_comm_cons, !concat_cons, IH. now rewrite append_assoc.
Qed.

Lemma block_ends_in_cors_tail (base : list string) :
  PyStr.endswith (String.concat "" (base ++ cors_headers ++ [CRLF])%list)
                 cors_tail = true.
Proof. rewrite concat_app. apply endswith_app. Qed.

End Blocks.

(** ** The header block, line by line *)

Section BlockLines.
Local Open Scope string_scope.

Lemma base_lines_contents (base : list string) :
  Forall base_line base ->
  exists cs, base = map (fun c => c ++ CRLF) cs
             /\ Forall (fun c => no_lf c = true) cs
             /\ (forall l, In l cors_fields -> ~ In l cs).
Proof.
  induction 1 as [|l base (c & -> & Hc & Hn) _ (cs & -> & Hcs & Hno)].
  - exists []. repeat split; [constructor | intros l _ []].
  - exists (c :: cs). repeat split; [constructor; assumption|].
    intros l Hl [<-|Hin]; [exact (Hn Hl) | exact (Hno l Hl Hin)].
Qed.

(** Lines without line feed, each with its line end, one after the
    other: the text splits into these lines and an empty rest. *)
Lemma split_crlf_lines (cs : list string) :
  Forall (fun c => no_lf c = true) cs ->
  split_crlf (String.concat "" (map (fun c => c ++ CRLF) cs))
  = (cs ++ [""])%list.
Proof.
  induction 1 as [|c cs Hc _ IH]; [reflexivity|].
  cbn [map]. rewrite concat_cons, append_assoc.
  rewrite split_crlf_line by exact Hc. now rewrite IH.
Qed.

(** In the text of a block made of lines of the base class, the three
    lines and the blank line, each of the three is there once. *)
Lemma cors_once_in_block (base : list string) (l : string) :
  Forall base_line base -> In l cors_fields ->
  count_occ string_dec
    (split_crlf (String.concat "" (base ++ cors_headers ++ [CRLF])%list)) l
  = 1.
Proof.
  intros Hb Hl.
  destruct (base_lines_contents base Hb) as (cs & -> & Hcs & Hno).
  change (cors_headers ++ [CRLF])%list
    with (map (fun c => c ++ CRLF) (cors_fields ++ [""])%list).
  rewrite <- map_app, split_crlf_lines.
  - rewrite <- !app_assoc, count_occ_app.
    rewrite (proj1 (count_occ_not_In string_dec cs l) (Hno l Hl)).
    destruct Hl as [<-|[<-|[<-|[]]]]; vm_compute; reflexivity.
  - apply Forall_app. split; [exact Hcs|]. repeat constructor.
Qed.

Lemma answered_carries (h h' : handler) :
  buffered h = [] -> answered h h' -> carries_cors_once h h'.
Proof.
  intros Hb (base & rest & W & F). rewrite Hb in W. cbn [app] in W.
  exists (String.concat "" (base ++ cors_headers ++ [CRLF])%list), rest.
  split; [exact W|]. split; [apply block_ends_in_cors_tail|].
  intros l Hl. now apply cors_once_in_block.
Qed.

(** A block that holds the three lines twice does not carry them
    once. *)
Example cors_twice_is_not_once :
  let block :=
    String.concat ""
      ([("HTTP/1.0 200 OK" ++ CRLF)%string]
       ++ cors_headers ++ cors_headers ++ [CRLF]) in
  ~ carries_cors_once (mkHandler "HTTP/1.1" (Some "GET"%string) "/" None []
                                 true)
                      (mkHandler "HTTP/1.1" (Some "GET"%string) "/"
                                 (Some []) [block] true).
Proof.
  intros block (b & rest & W & _ & H). injection W as <- _.
  specialize (H _ (or_introl eq_refl)). vm_compute in H. discriminate.
Qed.

End BlockLines.

Lemma serving_not_chdir (evs : list Script.event) (d : string) :
  Forall serving_event evs -> ~ In (Script.Chdir d) evs.
Proof.
  intros F Hin. rewrite Forall_forall in F. exact (F _ Hin).
Qed.

Lemma serving_not_bind (evs : list Script.event) host port :
  Forall serving_event evs -> ~ In (Script.Bind host port) evs.
Proof.
  intros F Hin. rewrite Forall_forall in F. exact (F _ Hin).
Qed.

Lemma serving_not_accepting (evs : list Script.event) :
  Forall serving_event evs -> ~ In Script.Accepting evs.
Proof.
  intros F Hin. rewrite Forall_forall in F. exact (F _ Hin).
Qed.

Lemma existsb_is_Interrupt (arrivals : list Script.arrival) :
  In Script.Interrupt arrivals ->
  existsb is_Interrupt arrivals = true.
Proof. intros H. apply existsb_exists. now exists Script.Interrupt. Qed.

(* ================================================================== *)
(** * The claims *)

Local Open Scope string_scope.

(** C1.  A path that ends in [.js] does not get [application/javascript]
    from [guess_type] on CPython: the superclass returns one string, here
    [text/javascript], and the assignment on line 30 raises before the
    suffix is tested. *)
Theorem guess_type_js_raises :
  let path := "/srv/oncoprint-js/styles/app.js" in
  PyStr.endswith path ".js" = true
  /\ SimpleHTTPRequestHandler.guess_type Fixture.cpython path
     = Return (PyStr "text/javascript")
  /\ self_guess_type (CustomHTTPRequestHandler.class Fixture.cpython) path
     = Raise ValueError.
Proof. repeat split; vm_compute; reflexivity. Qed.

(** C2.  A path that does not end in [.js] does not get the guess of the
    superclass back on CPython: the superclass returns [text/html], the
    override raises. *)
Theorem guess_type_html_raises :
  let path := "/srv/oncoprint-js/examples/basic-usage.html" in
  PyStr.endswith path ".js" = false
  /\ SimpleHTTPRequestHandler.guess_type Fixture.cpython path
     = Return (PyStr "text/html")
  /\ self_guess_type (CustomHTTPRequestHandler.class Fixture.cpython) path
     = Raise ValueError.
Proof. repeat split; vm_compute; reflexivity. Qed.

(** C3, as amended.  While the handler's [request_version] is not
    ['HTTP/0.9'], every response carries the three headers.  This holds
    for the answer to a request, whatever its method and path and
    whatever the status of the answer ([do_GET], [do_HEAD] and the 501
    page for other methods), and for every error page that [send_error]
    is asked for.  The first piece sent is the header block; its text
    ends with the three lines and the blank line, after the lines of the
    base class, and each of the three lines occurs exactly once among
    the lines of that text.  When the handler raises instead of
    returning, it has sent nothing, or no more than the beginning of
    such a response. *)
Theorem response_carries_cors (P : platform) (h : handler) :
  clean_platform P ->
  request_version h <> "HTTP/0.9"%string ->
  buffered h = [] ->
  (forall r h',
      command h <> None ->
      Script.dispatch P h = (r, h') -> sent_with_cors r h h')
  /\ (forall code message explain r h',
        (forall m, message = Some m -> no_lf m = true) ->
        CustomHTTPRequestHandler.send_error P code message explain h
        = (r, h') ->
        sent_with_cors r h h').
Proof.
  intros HP Hv Hb.
  assert (Hv' : version_0_9 h = false) by (now apply String.eqb_neq).
  split.
  - intros r h' Hc E.
    pose proof (answers_dispatch P HP h r h' Hv' Hc E) as H.
    destruct r as [a|e]; simpl.
    + now apply answered_carries.
    + left. apply H.
  - intros code message explain r h' Hm E.
    pose proof (answers_send_error P HP code message explain Hm h Hv' r h' E)
      as H.
    destruct r as [a|e]; simpl.
    + now apply answered_carries.
    + left. apply H.
Qed.

Lemma response_carries_cors_witness :
  let h := Script.parsed_request "GET" "/examples/" "HTTP/1.1" in
  let h' := snd (Script.dispatch Fixture.cpython h) in
  fst (Script.dispatch Fixture.cpython h) = Return tt
  /\ carries_cors_once h h'.
Proof.
  intros h h'. split; [vm_compute; reflexivity|].
  apply (proj1 (response_carries_cors Fixture.cpython h fixture_clean
                  ltac:(discriminate) eq_refl)
           (Return tt) h').
  - discriminate.
  - vm_compute. reflexivity.
Defined.

(** C3, as stated, fails for an HTTP/0.9 request: the directory listing
    is sent without any header. *)
Lemma cors_missing_on_http_0_9 :
  let h := Script.parsed_request "GET" "/examples/" "HTTP/0.9" in
  let h' := snd (Script.dispatch Fixture.cpython h) in
  fst (Script.dispatch Fixture.cpython h) = Return tt
  /\ wfile h' = ["<!DOCTYPE HTML><title>Directory listing</title>"%string]
  /\ ~ carries_cors_once h h'.
Proof.
  assert (E : wfile (snd (Script.dispatch Fixture.cpython
                            (Script.parsed_request "GET" "/examples/" "HTTP/0.9")))
              = ["<!DOCTYPE HTML><title>Directory listing</title>"%string])
    by (vm_compute; reflexivity).
  split; [vm_compute; reflexivity | split].
  - exact E.
  - intros (block & rest & W & Hend & _). rewrite E in W. simpl in W.
    injection W as <- _. vm_compute in Hend. discriminate.
Qed.

(** C4.  When the accept loop is entered, the process has changed its
    working directory once, before binding and accepting, and never
    again; the directory is [dirname(dirname(abspath(__file__)))], which
    for a script at [root/dir/file] is [root]. *)
Theorem chdir_once_before_accepting (env : Script.environment) :
  In Script.Accepting (fst (Script.run env)) ->
  (exists before after,
      fst (Script.run env)
      = (Script.Chdir (Script.project_root (Script.abspath_file env))
         :: before ++ Script.Accepting :: after)%list
      /\ forall d, ~ In (Script.Chdir d) (before ++ after)%list)
  /\ (forall root dir file,
         Script.abspath_file env = root ++ "/" ++ dir ++ "/" ++ file ->
         ends_in_name root = true -> no_sep dir = true -> dir <> "" ->
         no_sep file = true ->
         Script.project_root (Script.abspath_file env) = root).
Proof.
  intros Hacc. split.
  - destruct (Script.chdir_fails env) eqn:H1.
    { rewrite run_chdir_fails in Hacc by assumption.
      destruct Hacc as [H|[]]; discriminate. }
    destruct (Script.bind_fails env) eqn:H2.
    { rewrite run_bind_fails in Hacc by assumption. simpl in Hacc.
      repeat destruct Hacc as [Hacc|Hacc]; try discriminate; contradiction. }
    destruct (run_started env H1 H2) as (evs & F & E).
    exists (Script.Bind "" 8000 :: banner).
    destruct (existsb is_Interrupt (Script.incoming env)); rewrite E.
    + exists (evs ++ [stop_notice; Script.ServerClose])%list. split.
      * unfold startup. simpl. rewrite <- ?app_assoc. reflexivity.
      * intros d Hin. simpl in Hin. rewrite ?in_app_iff in Hin. simpl in Hin.
        repeat destruct Hin as [Hin|Hin]; try discriminate; try contradiction.
        exact (serving_not_chdir evs d F Hin).
    + exists evs. split.
      * unfold startup. simpl. rewrite <- ?app_assoc. reflexivity.
      * intros d Hin. simpl in Hin. rewrite ?in_app_iff in Hin. simpl in Hin.
        repeat destruct Hin as [Hin|Hin]; try discriminate; try contradiction.
        exact (serving_not_chdir evs d F Hin).
  - intros root dir file -> Hr Hd Hne Hf. now apply project_root_layout.
Qed.

Lemma chdir_once_before_accepting_witness :
  exists before after,
    fst (Script.run (Fixture.env [Script.Interrupt]))
    = (Script.Chdir "/srv/oncoprint-js"
       :: before ++ Script.Accepting :: after)%list
    /\ forall d, ~ In (Script.Chdir d) (before ++ after)%list.
Proof.
  assert (Hacc : In Script.Accepting
                   (fst (Script.run (Fixture.env [Script.Interrupt]))))
    by (vm_compute; tauto).
  destruct (chdir_once_before_accepting _ Hacc) as [(b & a & E & N) Hroot].
  exists b, a. split; [|exact N].
  rewrite E.
  rewrite (Hroot "/srv/oncoprint-js" "scripts" "serve.py");
    first [reflexivity | discriminate].
Defined.

(** C5.  The one socket the script binds is [("", 8000)]; when binding
    fails nothing is printed or served, the traceback goes to the
    standard error stream and the exit status is 1. *)
Theorem bind_8000_fail_fast (env : Script.environment) :
  Script.chdir_fails env = false ->
  (exists rest,
      fst (Script.run env)
      = Script.Chdir (Script.project_root (Script.abspath_file env))
        :: Script.Bind "" 8000 :: rest
      /\ forall host port, ~ In (Script.Bind host port) rest)
  /\ (Script.bind_fails env = true ->
      Script.run env
      = ([Script.Chdir (Script.project_root (Script.abspath_file env));
          Script.Bind "" 8000; Script.ServerClose;
          Script.Stderr Script.traceback],
         Script.Exited 1)).
Proof.
  intros H1. split.
  - destruct (Script.bind_fails env) eqn:H2.
    + rewrite run_bind_fails by assumption. eexists. split; [reflexivity|].
      intros host port Hin. simpl in Hin.
      repeat destruct Hin as [Hin|Hin]; try discriminate; contradiction.
    + destruct (run_started env H1 H2) as (evs & F & E). rewrite E.
      destruct (existsb is_Interrupt (Script.incoming env));
        unfold startup; simpl; eexists; (split; [reflexivity|]);
        intros host port Hin; simpl in Hin;
        rewrite ?in_app_iff in Hin; simpl in Hin;
        repeat destruct Hin as [Hin|Hin]; try discriminate;
        try contradiction; exact (serving_not_bind evs host port F Hin).
  - intros H2. now apply run_bind_fails.
Qed.

Lemma bind_8000_fail_fast_witness :
  Script.run (Script.mkEnv "/srv/oncoprint-js/scripts/serve.py" false true [])
  = ([Script.Chdir "/srv/oncoprint-js"; Script.Bind "" 8000;
      Script.ServerClose; Script.Stderr Script.traceback],
     Script.Exited 1).
Proof.
  exact (proj2 (bind_8000_fail_fast
                  (Script.mkEnv "/srv/oncoprint-js/scripts/serve.py"
                                false true [])
                  eq_refl) eq_refl).
Defined.

(** C6.  When the interrupt arrives while the accept loop runs, whatever
    was served before, the process prints the stop notice, closes the
    server and exits with status 0. *)
Theorem interrupt_exits_0 (env : Script.environment) :
  Script.chdir_fails env = false ->
  Script.bind_fails env = false ->
  In Script.Interrupt (Script.incoming env) ->
  exists t,
    fst (Script.run env) = (t ++ [stop_notice; Script.ServerClose])%list
    /\ In Script.Accepting t
    /\ snd (Script.run env) = Script.Exited 0.
Proof.
  intros H1 H2 Hi.
  destruct (run_started env H1 H2) as (evs & F & E).
  rewrite (existsb_is_Interrupt _ Hi) in E. rewrite E.
  exists (startup env ++ evs)%list. repeat split.
  apply in_or_app. left. unfold startup. simpl. tauto.
Qed.

Lemma interrupt_exits_0_witness :
  exists t,
    fst (Script.run
           (Fixture.env
              [Script.Request Fixture.cpython "GET" "/examples/" "HTTP/1.1";
               Script.Interrupt]))
    = (t ++ [stop_notice; Script.ServerClose])%list
    /\ In Script.Accepting t
    /\ snd (Script.run
              (Fixture.env
                 [Script.Request Fixture.cpython "GET" "/examples/" "HTTP/1.1";
                  Script.Interrupt]))
       = Script.Exited 0.
Proof.
  apply interrupt_exits_0.
  - reflexivity.
  - reflexivity.
  - simpl. tauto.
Defined.

(** C7.  After a successful start the standard output holds the line
    with the URL, the heading, the two example URLs and the hint, all
    written before the accept loop is entered. *)
Theorem startup_banner (env : Script.environment) :
  Script.chdir_fails env = false ->
  Script.bind_fails env = false ->
  exists rest,
    fst (Script.run env)
    = (Script.Chdir (Script.project_root (Script.abspath_file env))
       :: Script.Bind "" 8000
       :: banner ++ Script.Accepting :: rest)%list
    /\ forall text, In (Script.Stdout text) rest ->
                    Script.Stdout text = stop_notice.
Proof.
  intros H1 H2.
  destruct (run_started env H1 H2) as (evs & F & E). rewrite E.
  rewrite Forall_forall in F.
  destruct (existsb is_Interrupt (Script.incoming env)).
  - exists (evs ++ [stop_notice; Script.ServerClose])%list. split.
    + unfold startup. simpl. rewrite <- ?app_assoc. reflexivity.
    + intros text Hin. apply in_app_or in Hin as [Hin|[Hin|[Hin|[]]]].
      * destruct (F _ Hin).
      * now symmetry.
      * discriminate.
  - exists evs. split.
    + unfold startup. simpl. rewrite <- ?app_assoc. reflexivity.
    + intros text Hin. destruct (F _ Hin).
Qed.

Lemma startup_banner_witness :
  exists rest,
    fst (Script.run (Fixture.env []))
    = (Script.Chdir "/srv/oncoprint-js" :: Script.Bind "" 8000
       :: banner ++ Script.Accepting :: rest)%list
    /\ forall text, In (Script.Stdout text) rest ->
                    Script.Stdout text = stop_notice.
Proof.
  exact (startup_banner (Fixture.env []) eq_refl eq_refl).
Defined.

(** C8.  A request for a path that does not exist is not answered with
    404 on CPython: [send_head] calls [self.guess_type] before it opens
    the file, the override raises there, and nothing is sent.  The
    superclass alone answers 404, and the accept loop goes on. *)
Theorem missing_file_raises_no_404 :
  let h := Script.parsed_request "GET" "/does/not/exist" "HTTP/1.1" in
  Script.dispatch Fixture.cpython h = (Raise ValueError, h)
  /\ (exists h' body,
        SimpleHTTPRequestHandler.do_GET
          (SimpleHTTPRequestHandler.class Fixture.cpython) Fixture.cpython h
        = (Return tt, h')
        /\ wfile h'
           = [String.concat ""
                [ "HTTP/1.0 404 File not found" ++ CRLF;
                  "Server: SimpleHTTP/0.6 Python/3.11.2" ++ CRLF;
                  "Date: Tue, 03 Nov 2026 10:00:00 GMT" ++ CRLF;
                  "Connection: close" ++ CRLF;
                  "Content-Type: text/html;charset=utf-8" ++ CRLF;
                  "Content-Length: 97" ++ CRLF;
                  CRLF ];
              body])
  /\ Script.run (Fixture.env [Script.Request Fixture.cpython
                               "GET" "/does/not/exist" "HTTP/1.1"])
     = ((startup (Fixture.env [])
         ++ [Script.Response []; Script.Stderr Script.traceback])%list,
        Script.Running).
Proof.
  split; [|split].
  - apply dispatch_GET_not_dir.
    + exact fixture_mime_tables.
    + reflexivity.
    + reflexivity.
  - eexists _, _. split; vm_compute; reflexivity.
  - vm_compute. reflexivity.
Qed.

(** C9.  The result of [guess_type] has one of two shapes, or there is
    none: when the result of the superclass unpacks into two items, a
    path ending in [.js] gets the bare string and any other path the
    pair of the two items; when it does not unpack, the call raises.
    The bare string itself does not unpack into two items. *)
Theorem guess_type_return_shape
    (super_guess_type : string -> result pyval) (path : string) (r : pyval) :
  super_guess_type path = Return r ->
  (two_items r = true ->
   exists m e,
     unpack2 r = Return (m, e)
     /\ (PyStr.endswith path ".js" = true ->
         CustomHTTPRequestHandler.guess_type super_guess_type path
         = Return (PyStr "application/javascript"))
     /\ (PyStr.endswith path ".js" = false ->
         CustomHTTPRequestHandler.guess_type super_guess_type path
         = Return (PyTuple [m; e])))
  /\ (two_items r = false ->
      exists x,
        CustomHTTPRequestHandler.guess_type super_guess_type path = Raise x)
  /\ two_items (PyStr "application/javascript") = false.
Proof.
  intros Hs. split; [|split].
  - intros Hr. apply two_items_unpack in Hr as (m & e & Hu).
    exists m, e. split; [exact Hu|]. split; intros Hjs.
    + eapply guess_type_js; eassumption.
    + eapply guess_type_other; eassumption.
  - intros Hr.
    destruct (guess_type_unpack_fails super_guess_type path r Hs Hr)
      as (x & Hx & _).
    now exists x.
  - reflexivity.
Qed.

Lemma guess_type_return_shape_witness :
  CustomHTTPRequestHandler.guess_type
    (fun _ => Return (PyTuple [PyStr "text/javascript"; PyNone]))
    "/styles/app.js"
  = Return (PyStr "application/javascript")
  /\ CustomHTTPRequestHandler.guess_type
       (fun _ => Return (PyTuple [PyStr "text/html"; PyNone]))
       "/index.html"
     = Return (PyTuple [PyStr "text/html"; PyNone])
  /\ exists x,
       CustomHTTPRequestHandler.guess_type
         (fun _ => Return (PyStr "text/html")) "/index.html" = Raise x.
Proof.
  split; [|split].
  - destruct (proj1 (guess_type_return_shape
                       (fun _ => Return (PyTuple [PyStr "text/javascript";
                                                  PyNone]))
                       "/styles/app.js" _ eq_refl) eq_refl)
      as (m & e & _ & Hjs & _).
    exact (Hjs eq_refl).
  - destruct (proj1 (guess_type_return_shape
                       (fun _ => Return (PyTuple [PyStr "text/html"; PyNone]))
                       "/index.html" _ eq_refl) eq_refl)
      as (m & e & Hu & _ & Hother).
    injection Hu as <- <-. exact (Hother eq_refl).
  - exact (proj1 (proj2 (guess_type_return_shape
                           (fun _ => Return (PyStr "text/html"))
                           "/index.html" _ eq_refl)) eq_refl).
Defined.

(** When the superclass does return a pair, any other casing of the
    suffix gets that pair back: the test on line 32 is case-sensitive. *)
Lemma guess_type_other_casing
    (super_guess_type : string -> result pyval) (p t : string)
    (r m e : pyval) :
  PyStr.lower t = ".js" -> t <> ".js" ->
  super_guess_type (p ++ t) = Return r ->
  unpack2 r = Return (m, e) ->
  CustomHTTPRequestHandler.guess_type super_guess_type (p ++ t)
  = Return (PyTuple [m; e]).
Proof.
  intros Hl Hne Hs Hu. eapply guess_type_other; try eassumption.
  now apply endswith_other_casing.
Qed.

(** C10.  A path that ends in [.JS] does not get the override, and on
    CPython it does not get the guess of the superclass either: the
    assignment on line 30 raises as for every other path. *)
Theorem guess_type_upper_js_raises :
  let path := "/srv/oncoprint-js/styles/app.JS" in
  PyStr.endswith path ".js" = false
  /\ SimpleHTTPRequestHandler.guess_type Fixture.cpython path
     = Return (PyStr "text/javascript")
  /\ self_guess_type (CustomHTTPRequestHandler.class Fixture.cpython) path
     = Raise ValueError.
Proof. repeat split; vm_compute; reflexivity. Qed.

(* ================================================================== *)
(** * Further properties *)

Local Open Scope list_scope.

(** ** [end_headers] *)

(** X1.  However [end_headers] ends, it keeps what was already sent
    and only adds to it, and it leaves the request version, the method,
    the path and the connection flag as they were: none of the three
    headers is a [Connection] header. *)
Theorem end_headers_keeps_state (h : handler) (r : result unit)
    (h' : handler) :
  CustomHTTPRequestHandler.end_headers h = (r, h') ->
  (exists out, wfile h' = wfile h ++ out)
  /\ request_version h' = request_version h
  /\ command h' = command h
  /\ self_path h' = self_path h
  /\ close_connection h' = close_connection h.
Proof.
  destruct (version_0_9 h) eqn:Hv.
  - rewrite end_headers_0_9 by assumption. intros [= _ <-].
    split; [exists []; now rewrite app_nil_r | auto].
  - rewrite end_headers_block by assumption. intros [= _ <-].
    split; [eexists; reflexivity | auto].
Qed.

Lemma end_headers_keeps_state_witness :
  let h := mkHandler "HTTP/1.1" (Some "GET"%string) "/" None
                     ["sent before"%string] false in
  let h' := snd (CustomHTTPRequestHandler.end_headers h) in
  (exists out, wfile h' = wfile h ++ out)
  /\ request_version h' = "HTTP/1.1"%string
  /\ command h' = Some "GET"%string
  /\ self_path h' = "/"%string
  /\ close_connection h' = false.
Proof.
  intros h h'.
  exact (end_headers_keeps_state h
           (fst (CustomHTTPRequestHandler.end_headers h)) h' eq_refl).
Defined.

(** X2.  When no header was buffered at all, the method of the base class
    raises, while the override sends the three lines and the blank line
    as one block. *)
Theorem end_headers_without_buffer (h : handler) :
  version_0_9 h = false ->
  headers_buffer h = None ->
  BaseHTTPRequestHandler.end_headers h = (Raise AttributeError, h)
  /\ fst (CustomHTTPRequestHandler.end_headers h) = Return tt
  /\ wfile (snd (CustomHTTPRequestHandler.end_headers h))
     = wfile h ++ [cors_tail].
Proof.
  intros Hv Hb. split; [|split].
  - unfold BaseHTTPRequestHandler.end_headers.
    unfold version_0_9 in Hv. now rewrite Hv, Hb.
  - now rewrite end_headers_block.
  - rewrite end_headers_block by assumption. simpl.
    unfold buffered. now rewrite Hb.
Qed.

Lemma end_headers_without_buffer_witness :
  wfile (snd (CustomHTTPRequestHandler.end_headers
                (Script.parsed_request "GET" "/" "HTTP/1.1")))
  = [cors_tail].
Proof.
  exact (proj2 (proj2 (end_headers_without_buffer
                         (Script.parsed_request "GET" "/" "HTTP/1.1")
                         eq_refl eq_refl))).
Defined.

(** X3.  For an HTTP/0.9 request [end_headers] does nothing: no header
    is buffered, nothing is sent, the handler is as before. *)
Theorem end_headers_http_0_9_silent (h : handler) :
  request_version h = "HTTP/0.9" ->
  CustomHTTPRequestHandler.end_headers h = (Return tt, h).
Proof.
  intros Hv. apply end_headers_0_9. unfold version_0_9.
  now apply String.eqb_eq.
Qed.

Lemma end_headers_http_0_9_silent_witness :
  CustomHTTPRequestHandler.end_headers
    (Script.parsed_request "GET" "/examples/" "HTTP/0.9")
  = (Return tt, Script.parsed_request "GET" "/examples/" "HTTP/0.9").
Proof.
  exact (end_headers_http_0_9_silent
           (Script.parsed_request "GET" "/examples/" "HTTP/0.9") eq_refl).
Defined.

(** X4.  [end_headers] empties the buffer: called a second time it sends
    a block of its own that holds the three lines and the blank line and
    nothing of the first block. *)
Theorem end_headers_twice (h : handler) :
  version_0_9 h = false ->
  exists h2,
    mbind CustomHTTPRequestHandler.end_headers
          (fun _ => CustomHTTPRequestHandler.end_headers) h
    = (Return tt, h2)
    /\ wfile h2
       = wfile h
         ++ [String.concat "" (buffered h ++ cors_headers ++ [CRLF]);
             cors_tail]
    /\ headers_buffer h2 = Some [].
Proof.
  intros Hv.
  rewrite (mbind_return _ _ _ _ _ (end_headers_block h Hv)).
  rewrite end_headers_block by exact Hv.
  eexists. split; [reflexivity|]. simpl.
  rewrite <- app_assoc. auto.
Qed.

Lemma end_headers_twice_witness :
  exists h2,
    mbind CustomHTTPRequestHandler.end_headers
          (fun _ => CustomHTTPRequestHandler.end_headers)
          (Script.parsed_request "GET" "/" "HTTP/1.1")
    = (Return tt, h2)
    /\ wfile h2 = [cors_tail; cors_tail]
    /\ headers_buffer h2 = Some [].
Proof.
  exact (end_headers_twice (Script.parsed_request "GET" "/" "HTTP/1.1")
                           eq_refl).
Defined.

(** ** [guess_type] *)

(** X5.  When the result of the superclass unpacks into two items, the
    paths that get the bare [application/javascript] are exactly those
    of the form [stem ++ ".js"], the empty stem included. *)
Theorem guess_type_override_iff
    (super_guess_type : string -> result pyval) (path : string)
    (r m e : pyval) :
  super_guess_type path = Return r ->
  unpack2 r = Return (m, e) ->
  (CustomHTTPRequestHandler.guess_type super_guess_type path
   = Return (PyStr "application/javascript")
   <-> exists stem, path = (stem ++ ".js")%string).
Proof.
  intros Hs Hu. split.
  - intros Hg. destruct (PyStr.endswith path ".js") eqn:Hjs.
    + now apply endswith_inv.
    + rewrite (guess_type_other _ _ _ _ _ Hs Hu Hjs) in Hg. discriminate.
  - intros (stem & ->). eapply guess_type_js; try eassumption.
    apply endswith_app.
Qed.

Lemma guess_type_override_iff_witness :
  CustomHTTPRequestHandler.guess_type
    (fun _ => Return (PyTuple [PyStr "text/plain"; PyNone])) ".js"
  = Return (PyStr "application/javascript").
Proof.
  apply (proj2 (guess_type_override_iff
                  (fun _ => Return (PyTuple [PyStr "text/plain"; PyNone]))
                  ".js" _ _ _ eq_refl eq_refl)).
  now exists ""%string.
Defined.

(** X6.  A result of the superclass that is a string of two characters
    passes the assignment on line 30: a path that does not end in [.js]
    gets the two characters back as a pair. *)
Theorem guess_type_two_characters
    (super_guess_type : string -> result pyval) (path : string)
    (c1 c2 : ascii) :
  super_guess_type path
  = Return (PyStr (String c1 (String c2 EmptyString))) ->
  PyStr.endswith path ".js" = false ->
  CustomHTTPRequestHandler.guess_type super_guess_type path
  = Return (PyTuple [PyStr (String c1 EmptyString);
                     PyStr (String c2 EmptyString)]).
Proof.
  intros Hs Hjs. eapply guess_type_other; [exact Hs | reflexivity | exact Hjs].
Qed.

Lemma guess_type_two_characters_witness :
  CustomHTTPRequestHandler.guess_type (fun _ => Return (PyStr "ab"))
                                      "/index.html"
  = Return (PyTuple [PyStr "a"; PyStr "b"]).
Proof.
  exact (guess_type_two_characters (fun _ => Return (PyStr "ab"))
                                   "/index.html" "a" "b" eq_refl eq_refl).
Defined.

(** X7.  On a platform whose tables hold MIME types no path gets a type:
    the superclass returns a string that is not two characters long, and
    the override raises [ValueError], whatever the path ends in. *)
Theorem guess_type_fails_for_every_path (P : platform) (path : string) :
  mime_tables P ->
  exists s,
    SimpleHTTPRequestHandler.guess_type P path = Return (PyStr s)
    /\ String.length s <> 2
    /\ CustomHTTPRequestHandler.guess_type
         (SimpleHTTPRequestHandler.guess_type P) path
       = Raise ValueError.
Proof.
  intros Ht. pose proof Ht as [Hext Hmt].
  destruct (base_guess_type_str P path) as (s & Hs & Hfrom).
  exists s. split; [exact Hs|]. split.
  - destruct Hfrom as [[ext He] | [Hg | ->]].
    + eapply Hext; eassumption.
    + eapply Hmt; eassumption.
    + simpl. lia.
  - exact (guess_type_raises_on_mime_tables P path Ht).
Qed.

Lemma guess_type_fails_for_every_path_witness :
  exists s,
    SimpleHTTPRequestHandler.guess_type Fixture.cpython "/srv/a.tar.gz"
    = Return (PyStr s)
    /\ String.length s <> 2
    /\ CustomHTTPRequestHandler.guess_type
         (SimpleHTTPRequestHandler.guess_type Fixture.cpython) "/srv/a.tar.gz"
       = Raise ValueError.
Proof.
  exact (guess_type_fails_for_every_path Fixture.cpython "/srv/a.tar.gz"
                                         fixture_mime_tables).
Defined.

(** X8.  The test on line 32 is case-sensitive: among the suffixes that
    read [.js] when lowered, only [.js] itself gets the bare
    [application/javascript]; [.JS], [.Js] and [.jS] get the pair. *)
Theorem guess_type_case_sensitive
    (super_guess_type : string -> result pyval) (p t : string)
    (r m e : pyval) :
  PyStr.lower t = ".js"%string ->
  super_guess_type (p ++ t)%string = Return r ->
  unpack2 r = Return (m, e) ->
  (CustomHTTPRequestHandler.guess_type super_guess_type (p ++ t)%string
   = Return (PyStr "application/javascript")
   <-> t = ".js"%string)
  /\ (t <> ".js"%string ->
      CustomHTTPRequestHandler.guess_type super_guess_type (p ++ t)%string
      = Return (PyTuple [m; e])).
Proof.
  intros Hl Hs Hu.
  assert (Hother : t <> ".js"%string ->
                   CustomHTTPRequestHandler.guess_type super_guess_type
                     (p ++ t)%string = Return (PyTuple [m; e])).
  { intros Hne. eapply guess_type_other; try eassumption.
    now apply endswith_other_casing. }
  split; [split|exact Hother].
  - intros Hg. destruct (string_dec t ".js") as [Heq|Hne]; [exact Heq|].
    rewrite (Hother Hne) in Hg. discriminate.
  - intros ->. eapply guess_type_js; try eassumption. apply endswith_app.
Qed.

Lemma guess_type_case_sensitive_witness :
  CustomHTTPRequestHandler.guess_type
    (fun _ => Return (PyTuple [PyStr "text/javascript"; PyNone]))
    ("/styles/app" ++ ".Js")%string
  = Return (PyTuple [PyStr "text/javascript"; PyNone]).
Proof.
  apply (proj2 (guess_type_case_sensitive
                  (fun _ => Return (PyTuple [PyStr "text/javascript"; PyNone]))
                  "/styles/app" ".Js"
                  (PyTuple [PyStr "text/javascript"; PyNone])
                  (PyStr "text/javascript") PyNone
                  eq_refl eq_refl eq_refl)).
  discriminate.
Defined.

(** ** Which requests are answered *)

Section Returns.
Import BaseHTTPRequestHandler.

Lemma returns_ret {A} (a : A) : returns (ret a).
Proof. intros h. now exists a, h. Qed.

Lemma returns_update f : returns (update f).
Proof. intros h. now exists tt, (f h). Qed.

Lemma returns_mbind {A B} (m : M A) (k : A -> M B) :
  returns m -> (forall a, returns (k a)) -> returns (mbind m k).
Proof.
  intros Hm Hk h. destruct (Hm h) as (a & h1 & E1).
  destruct (Hk a h1) as (b & h2 & E2).
  exists b, h2. now rewrite (mbind_return _ _ _ _ _ E1).
Qed.

Lemma returns_send_response_only P code message :
  returns (send_response_only P code message).
Proof.
  intros h. unfold send_response_only.
  destruct (negb _); eexists _, _; reflexivity.
Qed.

Lemma returns_send_header keyword value :
  returns (send_header keyword value).
Proof.
  unfold send_header. apply returns_mbind.
  - intros h. destruct (negb _); eexists _, _; reflexivity.
  - intros _. repeat match goal with
                     | |- returns (if ?c then _ else _) => destruct c
                     end; auto using returns_update, returns_ret.
Qed.

Lemma returns_custom_end_headers :
  returns CustomHTTPRequestHandler.end_headers.
Proof.
  intros h. destruct (version_0_9 h) eqn:Hv.
  - rewrite end_headers_0_9 by assumption. now eexists _, _.
  - rewrite end_headers_block by assumption. now eexists _, _.
Qed.

Ltac returns_steps :=
  repeat first
    [ apply returns_ret
    | apply returns_update
    | apply returns_send_response_only
    | apply returns_send_header
    | apply returns_custom_end_headers
    | match goal with
      | |- returns (if ?c then _ else _) => destruct c
      | |- returns (match ?x with Some _ => _ | None => _ end) => destruct x
      end
    | apply returns_mbind; [|intros ?] ].

Lemma returns_send_response P code message :
  returns (send_response P code message).
Proof. unfold send_response. returns_steps. Qed.

Lemma returns_send_error P code message explain :
  returns (CustomHTTPRequestHandler.send_error P code message explain).
Proof.
  unfold CustomHTTPRequestHandler.send_error, send_error.
  destruct (match responses P code with
            | Some sl => sl
            | None => _
            end) as [shortmsg longmsg].
  apply returns_mbind; [apply returns_send_response | intros _].
  apply returns_mbind; [apply returns_send_header | intros _].
  apply returns_mbind;
    [destruct (_ && _); returns_steps; apply returns_send_header | intros body].
  apply returns_mbind; [apply returns_custom_end_headers | intros _].
  intros h.
  repeat match goal with
         | |- context [match ?x with Some _ => _ | None => _ end] => destruct x
         | |- context [if ?c then _ else _] => destruct c
         end; eexists _, _; reflexivity.
Qed.


End Returns.

(** On a platform whose tables hold MIME types [send_head] raises as
    soon as it asks for the type, and has sent nothing then. *)
Lemma send_head_file_raises (P : platform) (path : string) (h : handler) :
  mime_tables P ->
  SimpleHTTPRequestHandler.send_head_file
    (CustomHTTPRequestHandler.class P) P path h
  = (Raise ValueError, h).
Proof.
  intros Ht. unfold SimpleHTTPRequestHandler.send_head_file.
  apply mbind_raise. unfold lift.
  now rewrite guess_type_raises_on_mime_tables.
Qed.

(** X9.  On a platform whose tables hold MIME types the handler serves
    no file: every GET or HEAD whose path is not a directory, and every
    one for a directory, asked for with the trailing slash, that holds
    an index page, raises [ValueError] with nothing sent and the handler
    as it was. *)
Theorem send_head_serves_no_file (P : platform) (h : handler) :
  mime_tables P ->
  reaches_guess_type P h = true ->
  CustomHTTPRequestHandler.send_head P h = (Raise ValueError, h).
Proof.
  intros Ht.
  unfold reaches_guess_type, CustomHTTPRequestHandler.send_head,
    SimpleHTTPRequestHandler.send_head.
  destruct (isdir P (translate_path P (self_path h))); simpl.
  2:{ intros _. now apply send_head_file_raises. }
  destruct (PyStr.endswith (urlsplit_path P (self_path h)) "/"); simpl.
  2:{ discriminate. }
  destruct (isfile P (SimpleHTTPRequestHandler.join _ "index.html")); simpl.
  { intros _. now apply send_head_file_raises. }
  destruct (isfile P (SimpleHTTPRequestHandler.join _ "index.htm")); simpl.
  { intros _. now apply send_head_file_raises. }
  discriminate.
Qed.

Lemma send_head_serves_no_file_witness :
  CustomHTTPRequestHandler.send_head Fixture.cpython
    (Script.parsed_request "GET" "/examples/basic-usage.html" "HTTP/1.1")
  = (Raise ValueError,
     Script.parsed_request "GET" "/examples/basic-usage.html" "HTTP/1.1").
Proof.
  exact (send_head_serves_no_file Fixture.cpython
           (Script.parsed_request "GET" "/examples/basic-usage.html"
                                  "HTTP/1.1")
           fixture_mime_tables eq_refl).
Defined.

(** ** Error responses *)

Section ErrorResponses.
Import BaseHTTPRequestHandler.

Lemma send_response_only_line P code message h :
  version_0_9 h = false ->
  send_response_only P code (Some message) h
  = (Return tt,
     buffer_append (protocol_version ++ " " ++ PyStr.str_of_int code ++ " "
                    ++ message ++ CRLF)%string h).
Proof.
  intros Hv. unfold send_response_only. unfold version_0_9 in Hv.
  now rewrite Hv.
Qed.

Lemma send_header_connection_close h :
  version_0_9 h = false ->
  send_header "Connection" "close" h
  = (Return tt,
     set_close_connection true
       (buffer_append ("Connection: close" ++ CRLF)%string h)).
Proof.
  intros Hv. unfold send_header, mbind. unfold version_0_9 in Hv.
  now rewrite Hv.
Qed.

Lemma send_response_lines P code message h :
  version_0_9 h = false ->
  send_response P code (Some message) h
  = (Return tt,
     buffer_append ("Date: " ++ date_time_string P ++ CRLF)%string
       (buffer_append ("Server: " ++ version_string P ++ CRLF)%string
          (buffer_append (protocol_version ++ " " ++ PyStr.str_of_int code
                          ++ " " ++ message ++ CRLF)%string h))).
Proof.
  intros Hv. unfold send_response.
  erewrite mbind_return by (now apply send_response_only_line).
  erewrite mbind_return
    by (rewrite send_header_plain by reflexivity;
        rewrite ?version_0_9_append, Hv; reflexivity).
  rewrite send_header_plain by reflexivity.
  now rewrite ?version_0_9_append, Hv.
Qed.

(** [send_error] through the override, for a code that has a body. *)
Lemma send_error_with_body (P : platform) (code : Z)
    (message : string) (explain : option string) (h : handler) :
  version_0_9 h = false ->
  ((200 <=? code)%Z
   && negb ((code =? 204)%Z || (code =? 205)%Z || (code =? 304)%Z)) = true ->
  let body :=
    error_page P code message
      (match explain with
       | Some x => x
       | None => long_message P code
       end) in
  CustomHTTPRequestHandler.send_error P code (Some message) explain h
  = (Return tt,
     mkHandler (request_version h) (command h) (self_path h) (Some [])
       (wfile h
        ++ String.concat ""
             (buffered h ++ error_lines P code message body
              ++ cors_headers ++ [CRLF])
        :: (if negb (match command h with
                     | Some c => (c =? "HEAD")%string
                     | None => false
                     end)
               && negb (body =? "")%string
            then [body] else []))
       true).
Proof.
  intros Hv Hcode body.
  unfold CustomHTTPRequestHandler.send_error, send_error.
  assert (Hbody : error_page P code message
                    (match explain with
                     | Some x => x
                     | None => snd (match responses P code with
                                    | Some sl => sl
                                    | None => ("???", "???")%string
                                    end)
                     end) = body).
  { unfold body, long_message.
    destruct explain; [reflexivity|].
    now destruct (responses P code) as [[s l]|]. }
  destruct (match responses P code with
            | Some sl => sl
            | None => _
            end) as [shortmsg longmsg].
  rewrite Hcode. simpl snd in Hbody. rewrite Hbody.
  destruct h as [v c p b w cc]. unfold version_0_9 in Hv. simpl in Hv.
  assert (Hplain : forall k x b' cc',
             (PyStr.lower k =? "connection")%string = false ->
             send_header k x (mkHandler v c p (Some b') w cc')
             = (Return tt,
                mkHandler v c p (Some (b' ++ [(k ++ ": " ++ x ++ CRLF)%string]))
                          w cc')).
  { intros k x b' cc' Hk. rewrite send_header_plain by exact Hk.
    unfold version_0_9. simpl. now rewrite Hv. }
  erewrite mbind_return by (apply send_response_lines; exact Hv).
  erewrite mbind_return by (apply send_header_connection_close;
                            rewrite ?version_0_9_append; exact Hv).
  assert (Hstate :
            set_close_connection true
              (buffer_append ("Connection: close" ++ CRLF)%string
                 (buffer_append ("Date: " ++ date_time_string P ++ CRLF)%string
                    (buffer_append
                       ("Server: " ++ version_string P ++ CRLF)%string
                       (buffer_append
                          (protocol_version ++ " " ++ PyStr.str_of_int code
                           ++ " " ++ message ++ CRLF)%string
                          (mkHandler v c p b w cc)))))
            = mkHandler v c p
                (Some (buffered (mkHandler v c p b w cc)
                       ++ [ (protocol_version ++ " " ++ PyStr.str_of_int code
                             ++ " " ++ message ++ CRLF)%string;
                            ("Server: " ++ version_string P ++ CRLF)%string;
                            ("Date: " ++ date_time_string P ++ CRLF)%string;
                            ("Connection: close" ++ CRLF)%string ]))
                w true).
  { destruct b as [b|]; unfold buffered, buffer_append, set_close_connection,
      set_headers_buffer; simpl; rewrite <- ?app_assoc; reflexivity. }
  rewrite Hstate. clear Hstate.
  erewrite (mbind_return _ _ _ (Some body))
    by (erewrite mbind_return by (apply Hplain; reflexivity);
        erewrite mbind_return by (apply Hplain; reflexivity);
        reflexivity).
  change (self_end_headers (CustomHTTPRequestHandler.class P))
    with CustomHTTPRequestHandler.end_headers.
  erewrite mbind_return by (apply end_headers_block; exact Hv).
  cbn [request_version command self_path wfile close_connection buffered
       headers_buffer].
  unfold error_lines, error_content_type.
  rewrite <- !app_assoc. cbn [app].
  destruct (negb _ && negb _); unfold update, ret, wfile_write;
    cbn [request_version command self_path wfile close_connection
         headers_buffer];
    rewrite <- ?app_assoc; reflexivity.
Qed.

(** X10.  An error response with a body, for a request whose version is
    not HTTP/0.9: the status line, [Server], [Date], [Connection: close],
    [Content-Type] and [Content-Length], then the three CORS lines and
    the blank line, all in one block; then the body, unless the request
    is a HEAD; and the connection is marked to be closed. *)
Theorem error_response_block (P : platform) (code : Z)
    (message : string) (explain : option string) (h : handler) :
  version_0_9 h = false ->
  ((200 <=? code)%Z
   && negb ((code =? 204)%Z || (code =? 205)%Z || (code =? 304)%Z)) = true ->
  let body :=
    error_page P code message
      (match explain with
       | Some x => x
       | None => long_message P code
       end) in
  let result :=
    CustomHTTPRequestHandler.send_error P code (Some message) explain h in
  fst result = Return tt
  /\ wfile (snd result)
     = wfile h
       ++ String.concat ""
            (buffered h ++ error_lines P code message body
             ++ cors_headers ++ [CRLF])
       :: (if negb (match command h with
                    | Some c => (c =? "HEAD")%string
                    | None => false
                    end)
              && negb (body =? "")%string
           then [body] else [])
  /\ close_connection (snd result) = true
  /\ headers_buffer (snd result) = Some [].
Proof.
  intros Hv Hcode body result. unfold result.
  rewrite (send_error_with_body P code message explain h Hv Hcode).
  repeat split.
Qed.

Lemma error_response_block_witness :
  wfile (snd (CustomHTTPRequestHandler.send_error Fixture.cpython 400
                (Some "Bad request syntax ('GET')"%string) None
                (mkHandler "HTTP/1.1" None "" None [] true)))
  = [ String.concat ""
        (error_lines Fixture.cpython 400 "Bad request syntax ('GET')"
           (error_page Fixture.cpython 400 "Bad request syntax ('GET')"
              "Bad request syntax or unsupported method")
         ++ cors_headers ++ [CRLF]);
      error_page Fixture.cpython 400 "Bad request syntax ('GET')"
        "Bad request syntax or unsupported method" ].
Proof.
  exact (proj1 (proj2 (error_response_block Fixture.cpython 400
                         "Bad request syntax ('GET')" None
                         (mkHandler "HTTP/1.1" None "" None [] true)
                         eq_refl eq_refl))).
Defined.

(** X11.  While the handler's [request_version] is not ['HTTP/0.9'], a
    method other than GET and HEAD, the POST and OPTIONS that the CORS
    header names included, is answered with 501 and the error page: the
    header block carries the three CORS lines before the blank line, the
    page follows, and the connection is marked to be closed. *)
Theorem other_methods_get_501 (P : platform) (method : string)
    (h : handler) :
  command h = Some method ->
  method <> "GET"%string -> method <> "HEAD"%string ->
  version_0_9 h = false ->
  let message :=
    ("Unsupported method (" ++ repr_str P method ++ ")")%string in
  let body := error_page P 501 message (long_message P 501) in
  let result := Script.dispatch P h in
  fst result = Return tt
  /\ wfile (snd result)
     = wfile h
       ++ String.concat ""
            (buffered h ++ error_lines P 501 message body
             ++ cors_headers ++ [CRLF])
       :: (if negb (body =? "")%string then [body] else [])
  /\ close_connection (snd result) = true.
Proof.
  intros Hc Hget Hhead Hv message body result.
  apply String.eqb_neq in Hget, Hhead.
  assert (E : result
              = CustomHTTPRequestHandler.send_error P 501 (Some message)
                  None h).
  { unfold result, Script.dispatch. now rewrite Hc, Hget, Hhead. }
  rewrite E, (send_error_with_body P 501 message None h Hv eq_refl).
  cbn [fst snd wfile close_connection]. rewrite Hc, Hhead.
  repeat split.
Qed.

Lemma other_methods_get_501_witness :
  let h := mkHandler "HTTP/1.1" (Some "OPTIONS"%string) "/styles/app.js"
                     None [] true in
  exists block body,
    wfile (snd (Script.dispatch Fixture.cpython h)) = [block; body]
    /\ String.prefix "HTTP/1.0 501 Unsupported method ('OPTIONS')" block
       = true.
Proof.
  intros h. eexists _, _. split.
  - exact (proj1 (proj2 (other_methods_get_501 Fixture.cpython "OPTIONS" h
                           eq_refl ltac:(discriminate) ltac:(discriminate)
                           eq_refl))).
  - vm_compute. reflexivity.
Defined.

End ErrorResponses.

(** ** The run of the script *)

Section Runs.
Import Script.

(** A run in which the socket was bound, in terms of the accept loop. *)
Lemma run_unfold (env : environment) :
  chdir_fails env = false -> bind_fails env = false ->
  run env =
    match serve_loop (incoming env) (startup env) with
    | (Normal _, t) => (t ++ [ServerClose], Exited 0)
    | (Exc KeyboardInterrupt, t) => ((t ++ [stop_notice]) ++ [ServerClose],
                                     Exited 0)
    | (Exc (SystemExit c), t) => (t ++ [ServerClose], Exited c)
    | (Exc _, t) => ((t ++ [ServerClose]) ++ [Stderr traceback], Exited 1)
    | (Forever, t) => (t, Running)
    end.
Proof.
  intros H1 H2.
  unfold run, main, chdir, with_server, TCPServer,
    try_except_KeyboardInterrupt, serve_forever, print, sys_exit,
    pbind, emit, raise, pret.
  rewrite H1, H2. cbn [app].
  change ([Chdir (project_root (abspath_file env)); Bind "" PORT;
           Stdout (("Serving at " ++ url) ++ String LF "")%string;
           Stdout ("Examples available at:" ++ String LF "")%string;
           Stdout (("  " ++ url ++ "/examples/basic-usage-simple.html")
                   ++ String LF "")%string;
           Stdout (("  " ++ url ++ "/examples/basic-usage.html")
                   ++ String LF "")%string;
           Stdout (String LF "Press Ctrl+C to stop the server"
                   ++ String LF "")%string;
           Accepting]) with (startup env).
  destruct (serve_loop (incoming env) (startup env)) as [[[]|[]|] t];
    reflexivity.
Qed.

Lemma response_chunks_app (a b : list event) :
  response_chunks (a ++ b) = response_chunks a ++ response_chunks b.
Proof. apply flat_map_app. Qed.

(** The accept loop hands every request before the first interrupt to
    the handler, in the order of arrival. *)
Lemma serve_loop_served (arrivals : list arrival) (t : list event) :
  exists evs,
    Forall serving_event evs
    /\ response_chunks evs = served arrivals
    /\ serve_loop arrivals t =
         (if existsb is_Interrupt arrivals
          then Exc KeyboardInterrupt else Forever,
          t ++ evs).
Proof.
  revert t. induction arrivals as [|[Pf c p v|] rest IH]; intros t; simpl.
  - exists []. rewrite app_nil_r. repeat split. constructor.
  - destruct (IH (t ++ [Response
                          (wfile (snd (dispatch Pf (parsed_request c p v))))]))
      as (e2 & F2 & R2 & E2).
    destruct (handle_request_normal Pf (parsed_request c p v) t)
      as (e1 & E1 & F1).
    unfold handle_request in E1 |- *.
    destruct (dispatch Pf (parsed_request c p v)) as [[[]|e] h'] eqn:E.
    + exists (Response (wfile h') :: e2). split; [|split].
      * constructor; [exact I | exact F2].
      * simpl. now rewrite R2.
      * unfold pbind, emit. simpl in E2. rewrite E2.
        now rewrite <- app_assoc.
    + rewrite (safe_dispatch Pf _ e h' E).
      destruct (IH ((t ++ [Response (wfile h')]) ++ [Stderr traceback]))
        as (e3 & F3 & R3 & E3).
      exists (Response (wfile h') :: Stderr traceback :: e3).
      split; [|split].
      * repeat constructor. exact F3.
      * simpl. now rewrite R3.
      * unfold pbind, emit. rewrite E3.
        now rewrite <- !app_assoc.
  - exists []. rewrite app_nil_r. repeat split. constructor.
Qed.

Lemma serving_no_close (evs : list event) :
  Forall serving_event evs -> server_closes evs = 0.
Proof.
  unfold server_closes. induction 1 as [|ev evs Hev _ IH]; [reflexivity|].
  destruct ev; simpl; try contradiction; exact IH.
Qed.

Lemma server_closes_app (a b : list event) :
  server_closes (a ++ b) = server_closes a + server_closes b.
Proof. unfold server_closes. now rewrite filter_app, List.length_app. Qed.

End Runs.

(** X12.  How a run ends: with status 1 when [os.chdir] or the bind
    fails, with status 0 when an interrupt arrives, and not at all
    otherwise; no request changes that. *)
Theorem exit_status (env : Script.environment) :
  snd (Script.run env)
  = if Script.chdir_fails env || Script.bind_fails env then Script.Exited 1
    else if existsb is_Interrupt (Script.incoming env) then Script.Exited 0
         else Script.Running.
Proof.
  destruct (Script.chdir_fails env) eqn:H1.
  { now rewrite run_chdir_fails. }
  destruct (Script.bind_fails env) eqn:H2.
  { now rewrite run_bind_fails. }
  destruct (run_started env H1 H2) as (evs & _ & E). rewrite E. simpl.
  now destruct (existsb is_Interrupt (Script.incoming env)).
Qed.

(** X13.  The server socket is closed once in every run that binds it
    and ends, not at all while the process serves, and not at all when
    [os.chdir] failed and no socket was made. *)
Theorem server_closed_once (env : Script.environment) :
  server_closes (fst (Script.run env))
  = if Script.chdir_fails env then 0
    else match snd (Script.run env) with
         | Script.Running => 0
         | _ => 1
         end.
Proof.
  destruct (Script.chdir_fails env) eqn:H1.
  { now rewrite run_chdir_fails. }
  destruct (Script.bind_fails env) eqn:H2.
  { now rewrite run_bind_fails. }
  destruct (run_started env H1 H2) as (evs & F & E). rewrite E.
  destruct (existsb is_Interrupt (Script.incoming env)); cbn [fst snd];
    rewrite ?server_closes_app, (serving_no_close evs F); reflexivity.
Qed.

(** X15.  Requests are handled one at a time in the order of arrival:
    what the clients are sent is, connection by connection, what the
    handler wrote for each request that arrived before the first
    interrupt; when no interrupt arrives, every request is handled. *)
Theorem requests_served_in_order (env : Script.environment) :
  Script.chdir_fails env = false ->
  Script.bind_fails env = false ->
  response_chunks (fst (Script.run env)) = served (Script.incoming env)
  /\ (existsb is_Interrupt (Script.incoming env) = false ->
      List.length (response_chunks (fst (Script.run env)))
      = List.length (Script.incoming env)).
Proof.
  intros H1 H2.
  assert (Hchunks : response_chunks (fst (Script.run env))
                    = served (Script.incoming env)).
  { rewrite run_unfold by assumption.
    destruct (serve_loop_served (Script.incoming env) (startup env))
      as (evs & F & R & E).
    rewrite E.
    destruct (existsb is_Interrupt (Script.incoming env)); cbn [fst];
      rewrite !response_chunks_app, R; simpl;
      now rewrite ?app_nil_r. }
  split; [exact Hchunks|].
  intros Hno. rewrite Hchunks. clear Hchunks.
  induction (Script.incoming env) as [|[Pf c p v|] rest IH]; simpl in *.
  - reflexivity.
  - now rewrite IH.
  - discriminate.
Qed.

Lemma requests_served_in_order_witness :
  response_chunks
    (fst (Script.run
            (Fixture.env
               [Script.Request Fixture.cpython "GET" "/styles/app.js" "HTTP/1.1";
                Script.Request Fixture.cpython "GET" "/examples" "HTTP/1.1"])))
  = served
      [Script.Request Fixture.cpython "GET" "/styles/app.js" "HTTP/1.1";
       Script.Request Fixture.cpython "GET" "/examples" "HTTP/1.1"].
Proof.
  exact (proj1 (requests_served_in_order
                  (Fixture.env
                     [Script.Request Fixture.cpython "GET" "/styles/app.js"
                                     "HTTP/1.1";
                      Script.Request Fixture.cpython "GET" "/examples"
                                     "HTTP/1.1"])
                  eq_refl eq_refl)).
Defined.

(** ** The project root *)

Section ProjectRoot.
Local Open Scope string_scope.

Lemma drop_until_suffix (c : ascii) (l : list ascii) :
  exists pre, l = (pre ++ PyStr.drop_until c l)%list.
Proof.
  induction l as [|x l [pre IH]]; simpl.
  - now exists [].
  - destruct (Ascii.eqb x c).
    + now exists [].
    + exists (x :: pre). simpl. now rewrite <- IH.
Qed.

Lemma lstrip_suffix (c : ascii) (l : list ascii) :
  exists pre, l = (pre ++ PyStr.lstrip_list c l)%list.
Proof.
  induction l as [|x l [pre IH]]; simpl.
  - now exists [].
  - destruct (Ascii.eqb x c).
    + exists (x :: pre). simpl. now rewrite <- IH.
    + now exists [].
Qed.

Lemma string_of_list_app (a b : list ascii) :
  string_of_list_ascii (a ++ b)%list
  = string_of_list_ascii a ++ string_of_list_ascii b.
Proof. induction a as [|x a IH]; simpl; [reflexivity | now rewrite IH]. Qed.

(** A string whose reversed characters end in [tail] starts with [tail]
    reversed. *)
Lemma prefix_of_reversed_suffix (p : string) (pre tail : list ascii) :
  rev (list_ascii_of_string p) = (pre ++ tail)%list ->
  p = string_of_list_ascii (rev tail) ++ string_of_list_ascii (rev pre).
Proof.
  intros H. rewrite <- string_of_list_app, <- rev_app_distr, <- H.
  now rewrite rev_involutive, string_of_list_ascii_of_string.
Qed.

Lemma dirname_prefix (p : string) :
  exists rest, p = PyStr.dirname p ++ rest.
Proof.
  unfold PyStr.dirname.
  destruct (drop_until_suffix "/"%char (rev (list_ascii_of_string p)))
    as (pre & Hpre).
  destruct (PyStr.all_sep _).
  - eexists. now apply prefix_of_reversed_suffix with (pre := pre).
  - destruct (lstrip_suffix "/"%char
                (PyStr.drop_until "/"%char (rev (list_ascii_of_string p))))
      as (pre2 & Hpre2).
    eexists. apply prefix_of_reversed_suffix with (pre := (pre ++ pre2)%list).
    rewrite <- app_assoc, <- Hpre2. exact Hpre.
Qed.

Lemma dirname_top (name : string) :
  no_sep name = true -> PyStr.dirname ("/" ++ name) = "/".
Proof.
  intros Hn. unfold PyStr.dirname, no_sep in *. simpl.
  rewrite (drop_until_prefix (rev (list_ascii_of_string name)) [])
    by (now rewrite forallb_rev).
  reflexivity.
Qed.

End ProjectRoot.

(** X16.  The project root is always a leading part of the path of the
    script: the server never changes to a directory outside the
    ancestors of the script. *)
Theorem project_root_is_prefix (abspath_file : string) :
  exists rest,
    abspath_file = (Script.project_root abspath_file ++ rest)%string.
Proof.
  unfold Script.project_root.
  destruct (dirname_prefix abspath_file) as (r1 & H1).
  destruct (dirname_prefix (PyStr.dirname abspath_file)) as (r2 & H2).
  exists (r2 ++ r1)%string. rewrite <- append_assoc, <- H2. exact H1.
Qed.

(** X17.  For a script directly under the root of the file system, or
    one directory below it, the project root is the root of the file
    system. *)
Theorem project_root_near_top (dir file : string) :
  no_sep dir = true -> dir <> ""%string -> no_sep file = true ->
  Script.project_root ("/" ++ file)%string = "/"%string
  /\ Script.project_root ("/" ++ dir ++ "/" ++ file)%string = "/"%string.
Proof.
  intros Hd Hne Hf. unfold Script.project_root. split.
  - rewrite (dirname_top file Hf). reflexivity.
  - change ("/" ++ dir ++ "/" ++ file)%string
      with (("" ++ "/" ++ dir) ++ "/" ++ file)%string.
    rewrite dirname_join by auto using ends_in_name_join.
    apply (dirname_top dir Hd).
Qed.

Lemma project_root_near_top_witness :
  Script.project_root "/serve.py" = "/"%string
  /\ Script.project_root "/scripts/serve.py" = "/"%string.
Proof.
  exact (project_root_near_top "scripts" "serve.py" eq_refl
           ltac:(discriminate) eq_refl).
Defined.

(** ** How a request fails *)

Section Failures.
Import BaseHTTPRequestHandler.

Variable P : platform.





End Failures.



(** ** One request, from the request line on *)

Section KeepsVersion.
Import BaseHTTPRequestHandler.

Variable P : platform.
Let self := CustomHTTPRequestHandler.class P.

Lemma keeps_ret {A} (a : A) : keeps_version (ret a).
Proof. now intros h r h' [= _ <-]. Qed.

Lemma keeps_throw {A} (e : exn) : keeps_version (@throw A e).
Proof. now intros h r h' [= _ <-]. Qed.

Lemma keeps_lift {A} (r : result A) : keeps_version (lift r).
Proof. now intros h r' h' [= _ <-]. Qed.

Lemma keeps_update (f : handler -> handler) :
  (forall h, request_version (f h) = request_version h) ->
  keeps_version (update f).
Proof. intros Hf h r h' [= _ <-]. apply Hf. Qed.

Lemma keeps_mbind {A B} (m : M A) (k : A -> M B) :
  keeps_version m -> (forall a, keeps_version (k a)) ->
  keeps_version (mbind m k).
Proof.
  intros Hm Hk h r h' E. unfold mbind in E.
  destruct (m h) as [[a|x] h1] eqn:E1.
  - rewrite (Hk a h1 r h' E). exact (Hm h _ h1 E1).
  - injection E as _ <-. exact (Hm h _ h1 E1).
Qed.

Lemma keeps_send_response_only code message :
  keeps_version (send_response_only P code message).
Proof.
  intros h r h'. unfold send_response_only.
  destruct (negb _); intros [= _ <-];
    [apply version_buffer_append | reflexivity].
Qed.

Lemma keeps_send_header keyword value :
  keeps_version (send_header keyword value).
Proof.
  unfold send_header. apply keeps_mbind.
  - intros h r h'. destruct (negb _); intros [= _ <-];
      [apply version_buffer_append | reflexivity].
  - intros _. repeat match goal with
                     | |- keeps_version (if ?c then _ else _) => destruct c
                     end;
      first [apply keeps_ret | now apply keeps_update].
Qed.

Lemma keeps_custom_end_headers :
  keeps_version CustomHTTPRequestHandler.end_headers.
Proof.
  intros h r h'. destruct (version_0_9 h) eqn:Hv.
  - rewrite end_headers_0_9 by assumption. now intros [= _ <-].
  - rewrite end_headers_block by assumption. now intros [= _ <-].
Qed.

Ltac keeps_steps :=
  repeat first
    [ apply keeps_ret
    | apply keeps_throw
    | apply keeps_send_response_only
    | apply keeps_send_header
    | apply keeps_custom_end_headers
    | apply keeps_update; reflexivity
    | apply keeps_mbind; [|intros ?]
    | match goal with
      | |- keeps_version (if ?c then _ else _) => destruct c
      | |- keeps_version (match ?x with Some _ => _ | None => _ end) =>
          destruct x
      end ].

Ltac by_keeps tac :=
  match goal with
  | |- forall r h', ?m ?x = (r, h') -> _ =>
      let S := fresh "S" in
      assert (S : keeps_version m) by tac; exact (S _)
  end.

Lemma keeps_send_response code message :
  keeps_version (send_response P code message).
Proof. unfold send_response. keeps_steps. Qed.

Lemma keeps_send_error code message explain :
  keeps_version (send_error self P code message explain).
Proof.
  unfold send_error. destruct (match responses P code with
                               | Some sl => sl
                               | None => _
                               end) as [shortmsg longmsg].
  apply keeps_mbind; [apply keeps_send_response | intros _].
  apply keeps_mbind; [apply keeps_send_header | intros _].
  apply keeps_mbind; [keeps_steps | intros body].
  apply keeps_mbind; [apply keeps_custom_end_headers | intros _].
  intros h r h'.
  repeat match goal with
         | |- context [match ?x with Some _ => _ | None => _ end] =>
             destruct x
         | |- context [if ?c then _ else _] => destruct c
         end; now intros [= _ <-].
Qed.

Ltac keeps_all :=
  repeat first
    [ apply keeps_send_error
    | apply keeps_send_response
    | apply keeps_lift
    | progress keeps_steps ].

Lemma keeps_list_directory path :
  keeps_version (SimpleHTTPRequestHandler.list_directory self P path).
Proof.
  intros h. unfold SimpleHTTPRequestHandler.list_directory.
  destruct (listdir_page P path (self_path h)); by_keeps keeps_all.
Qed.

Lemma keeps_send_head_file path :
  keeps_version (SimpleHTTPRequestHandler.send_head_file self P path).
Proof. unfold SimpleHTTPRequestHandler.send_head_file. keeps_all. Qed.

Lemma keeps_send_head :
  keeps_version (SimpleHTTPRequestHandler.send_head self P).
Proof.
  intros h. unfold SimpleHTTPRequestHandler.send_head.
  repeat match goal with
         | |- context [if ?c then _ else _] => destruct c
         end;
    by_keeps ltac:(first [ apply keeps_list_directory
                         | apply keeps_send_head_file
                         | keeps_all ]).
Qed.

Lemma keeps_dispatch : keeps_version (Script.dispatch P).
Proof.
  intros h. unfold Script.dispatch.
  destruct (command h) as [c|]; [|by_keeps keeps_all].
  destruct (c =? "GET")%string; [|destruct (c =? "HEAD")%string].
  - by_keeps ltac:(apply keeps_mbind;
                   [apply keeps_send_head | intros ?; keeps_all]).
  - by_keeps ltac:(apply keeps_mbind;
                   [apply keeps_send_head | intros ?; keeps_all]).
  - by_keeps ltac:(apply keeps_send_error).
Qed.

End KeepsVersion.

Section OneRequest.
Import BaseHTTPRequestHandler.

Variable P : platform.
Hypothesis HP : clean_platform P.
Let self := CustomHTTPRequestHandler.class P.

Lemma carries_from (h1 h2 h' : handler) :
  wfile h1 = wfile h2 -> carries_cors_once h1 h' -> carries_cors_once h2 h'.
Proof. intros E (block & rest & W & H). exists block, rest. now rewrite <- E. Qed.

(** An error page: whenever the version is not ['HTTP/0.9'] afterwards,
    it was sent with the three headers. *)
Lemma send_error_cors code message explain (h : handler) r h' :
  (forall m, message = Some m -> no_lf m = true) ->
  buffered h = [] ->
  send_error self P code message explain h = (r, h') ->
  request_version h' <> "HTTP/0.9"%string ->
  exists a, r = Return a /\ carries_cors_once h h'.
Proof.
  intros Hm Hb E Hv.
  rewrite (keeps_send_error P code message explain h r h' E) in Hv.
  assert (Hv' : version_0_9 h = false) by (now apply String.eqb_neq).
  destruct (returns_send_error P code message explain h) as (a & h1 & E1).
  fold self in E1. unfold CustomHTTPRequestHandler.send_error in E1.
  fold self in E1. rewrite E1 in E. injection E as <- <-.
  exists a. split; [reflexivity|].
  apply answered_carries; [exact Hb|].
  exact (answers_send_error P HP code message explain Hm h Hv' _ _ E1).
Qed.

(** The same, followed by [return False]. *)
Lemma rejected code (message : string) explain (h0 h : handler) r h' :
  no_lf message = true ->
  wfile h = wfile h0 -> buffered h = [] ->
  mbind (send_error self P code (Some message) explain)
        (fun _ => ret false) h = (r, h') ->
  parsed h0 r h'.
Proof.
  intros Hm Hw Hb E. unfold mbind in E.
  destruct (send_error self P code (Some message) explain h)
    as [[a|e] h1] eqn:E1.
  - injection E as <- <-. right. split; [reflexivity|]. intros Hv.
    apply carries_from with (h1 := h); [exact Hw|].
    destruct (send_error_cors code (Some message) explain h _ _
                ltac:(now intros m [= <-]) Hb E1 Hv) as (_ & _ & H).
    exact H.
  - destruct (returns_send_error P code (Some message) explain h)
      as (a & h2 & E2).
    unfold CustomHTTPRequestHandler.send_error in E2. fold self in E2.
    rewrite E2 in E1. discriminate.
Qed.


Lemma no_lf_quoted (before s after : string) :
  no_lf before = true -> no_lf after = true ->
  no_lf (before ++ repr_str P s ++ after)%string = true.
Proof.
  intros Hb Ha. now rewrite !no_lf_app, Hb, Ha, (clean_repr_str P HP).
Qed.

Lemma parse_words_parsed requestline words headers (h : handler) r h' :
  version_0_9 h = true -> buffered h = [] ->
  parse_words self P requestline words headers h = (r, h') ->
  parsed h r h'.
Proof.
  intros Hv Hb E. unfold parse_words in E.
  assert (H09 : forall h1 : handler,
             request_version h1 = request_version h ->
             parsed h (Return false) h1).
  { intros h1 E1. right. split; [reflexivity|]. intros H. contradiction H.
    rewrite E1. now apply String.eqb_eq. }
  assert (Hsend : forall code message explain (hs : handler) a h1,
             request_version hs = request_version h ->
             mbind (send_error self P code message explain)
                   (fun _ => ret false) hs = (Return a, h1) ->
             a = false /\ request_version h1 = request_version h).
  { intros code message explain hs a h1 Hs E1. unfold mbind in E1.
    destruct (send_error self P code message explain hs)
      as [[[]|e] h2] eqn:E2; [|discriminate].
    injection E1 as <- <-. split; [reflexivity|].
    now rewrite (keeps_send_error P _ _ _ _ _ _ E2). }
  destruct (List.length words =? 0)%nat eqn:E0.
  { injection E as <- <-. now apply H09. }
  unfold mbind at 1 in E.
  match type of E with
  | (match ?X with _ => _ end) = _ =>
      destruct X as [[accepted|e] h1] eqn:E1
  end.
  2:{ destruct (3 <=? List.length words)%nat; [|discriminate].
      destruct (version_number (last words "")) as [[base number]|].
      - change ("HTTP/1.1" <=? protocol_version)%string with false in E1.
        rewrite andb_false_r in E1.
        rewrite (mbind_return _ _ _ _ _ (eq_refl : ret tt h = _)) in E1.
        destruct (pair_ge number (2, 0)%Z); [|discriminate].
        unfold mbind in E1.
        destruct (returns_send_error P 505
                    (Some ("Invalid HTTP version (" ++ base ++ ")")%string)
                    None h) as (a & h2 & E2).
        unfold CustomHTTPRequestHandler.send_error in E2. fold self in E2.
        rewrite E2 in E1. discriminate.
      - unfold mbind in E1.
        destruct (returns_send_error P 400
                    (Some ("Bad request version ("
                           ++ repr_str P (last words "") ++ ")")%string)
                    None h) as (a & h2 & E2).
        unfold CustomHTTPRequestHandler.send_error in E2. fold self in E2.
        rewrite E2 in E1. discriminate. }
  assert (H1 : accepted = false /\ request_version h1 = request_version h
               \/ accepted = true /\ wfile h1 = wfile h /\ buffered h1 = []
                  /\ ((3 <=? List.length words)%nat = false -> h1 = h)).
  { destruct (3 <=? List.length words)%nat.
    2:{ injection E1 as <- <-. right. auto. }
    destruct (version_number (last words "")) as [[base number]|].
    - change ("HTTP/1.1" <=? protocol_version)%string with false in E1.
      rewrite andb_false_r in E1.
      rewrite (mbind_return _ _ _ _ _ (eq_refl : ret tt h = _)) in E1.
      destruct (pair_ge number (2, 0)%Z).
      + left. exact (Hsend _ _ _ h _ _ eq_refl E1).
      + injection E1 as <- <-. right. repeat split; [exact Hb | discriminate].
    - left. exact (Hsend _ _ _ h _ _ eq_refl E1). }
  clear E1.
  destruct H1 as [[-> H1]|(-> & Hw1 & Hb1 & Hsame)].
  { injection E as <- <-. now apply H09. }
  cbn [negb] in E.
  destruct (negb _) eqn:Erange.
  { apply (rejected 400 _ None h h1) in E; auto.
    now apply no_lf_quoted. }
  destruct words as [|cmd [|path rest]]; try discriminate Erange.
  unfold mbind at 1 in E.
  match type of E with
  | (match ?X with _ => _ end) = _ =>
      destruct X as [[accepted|e] h2] eqn:E2
  end.
  2:{ destruct (List.length _ =? 2)%nat; [|discriminate].
      rewrite (mbind_return _ _ _ _ _
                 (eq_refl : update (set_close_connection true) h1 = _)) in E2.
      destruct (negb (cmd =? "GET")%string); [|discriminate].
      unfold mbind in E2.
      match type of E2 with
      | (match ?X with _ => _ end) = _ =>
          destruct X as [[a|x] h3] eqn:E3
      end; [discriminate|].
      destruct (returns_send_error P 400
                  (Some ("Bad HTTP/0.9 request type ("
                         ++ repr_str P cmd ++ ")")%string)
                  None (set_close_connection true h1)) as (a & h4 & E4).
      unfold CustomHTTPRequestHandler.send_error in E4. fold self in E4.
      rewrite E4 in E3. discriminate. }
  assert (H2 : accepted = false /\ request_version h2 = request_version h
               \/ accepted = true /\ wfile h2 = wfile h /\ buffered h2 = []).
  { destruct (List.length _ =? 2)%nat eqn:Elen.
    2:{ injection E2 as <- <-. right. auto. }
    assert (h1 = h) as -> by (apply Hsame; destruct rest; [reflexivity
                                                          | discriminate]).
    rewrite (mbind_return _ _ _ _ _
               (eq_refl : update (set_close_connection true) h = _)) in E2.
    destruct (negb (cmd =? "GET")%string).
    - left. exact (Hsend _ _ _ (set_close_connection true h) _ _ eq_refl E2).
    - injection E2 as <- <-. right. auto. }
  clear E2.
  destruct H2 as [[-> H2]|(-> & Hw2 & Hb2)].
  { injection E as <- <-. now apply H09. }
  cbn [negb] in E.
  unfold mbind at 1, update at 1 in E. cbv beta iota in E.
  set (h3 := set_path (stored_path path) (set_command (Some cmd) h2))
    in E.
  assert (Hw3 : wfile h3 = wfile h) by exact Hw2.
  assert (Hb3 : buffered h3 = []) by exact Hb2.
  assert (Hc3 : command h3 <> None) by discriminate.
  clearbody h3.
  destruct headers as [conntype expect|err|err].
  - unfold mbind at 1 in E.
    match type of E with
    | (match ?X with _ => _ end) = _ =>
        destruct X as [[[]|x] h4] eqn:E3
    end.
    2:{ repeat match type of E3 with
               | context [if ?c then _ else _] => destruct c
               end; discriminate. }
    change ("HTTP/1.1" <=? protocol_version)%string with false in E.
    rewrite andb_false_r in E. cbn [andb] in E. injection E as <- <-.
    left. split; [reflexivity|].
    repeat match type of E3 with
           | context [if ?c then _ else _] => destruct c
           end; injection E3 as <-; repeat split; assumption.
  - apply (rejected 431 _ _ h) in E; auto.
  - apply (rejected 431 _ _ h) in E; auto.
Qed.

End OneRequest.

(** X19.  One request, from the request line on.  Whatever the request
    line and the headers are, when the handler has recorded a version
    other than ['HTTP/0.9'] for the request, the answer carries the
    three headers: the first piece sent is a header block that ends
    with the three lines and the blank line and holds each of them
    once.  This covers the answers of [do_GET] and [do_HEAD], the 501
    page, the 400 page for a line of more than three words, the 431
    pages and the 414 page.  When the handler raised, nothing was
    sent, or no more than the beginning of such a response. *)
Theorem one_request_carries_cors (P : platform) (raw_requestline : string)
    (headers : BaseHTTPRequestHandler.request_headers)
    (r : result unit) (h' : handler) :
  clean_platform P ->
  Script.handle_one_request P raw_requestline headers Script.new_handler
  = (r, h') ->
  request_version h' <> "HTTP/0.9"%string ->
  sent_with_cors r Script.new_handler h'.
Proof.
  intros HP E Hv. unfold Script.handle_one_request in E.
  destruct (65536 <? _)%Z.
  { unfold mbind at 1, update at 1 in E. cbv beta iota in E.
    destruct (send_error_cors P HP 414 None None
                (set_command (Some "")
                   (set_request_version "" Script.new_handler)) r h'
                ltac:(discriminate) eq_refl E Hv) as (a & -> & H).
    exact H. }
  destruct (String.length raw_requestline =? 0)%nat.
  { injection E as _ <-. now contradiction Hv. }
  unfold mbind at 1 in E.
  destruct (BaseHTTPRequestHandler.parse_request _ P raw_requestline headers
              Script.new_handler) as [accepted h1] eqn:E1.
  unfold BaseHTTPRequestHandler.parse_request in E1.
  unfold mbind at 1, update at 1 in E1. cbv beta iota zeta in E1.
  apply (parse_words_parsed P HP) in E1; [|reflexivity|reflexivity].
  destruct E1 as [(-> & Hw & Hb & Hc)|(-> & Hcors)].
  - assert (Hv1 : version_0_9 h1 = false).
    { apply String.eqb_neq.
      now rewrite <- (keeps_dispatch P h1 r h' E). }
    pose proof (answers_dispatch P HP h1 r h' Hv1 Hc E) as H.
    destruct r as [a|e]; simpl.
    + apply carries_from with (h1 := h1); [exact Hw|].
      now apply answered_carries.
    + left. destruct H as [_ ->]. exact Hw.
  - injection E as <- <-. exact (Hcors Hv).
Qed.

Lemma one_request_carries_cors_witness :
  let raw := ("GET /examples/ HTTP/1.1" ++ CRLF)%string in
  let out :=
    Script.handle_one_request Fixture.cpython raw
      (BaseHTTPRequestHandler.Headers "" "") Script.new_handler in
  fst out = Return tt /\ carries_cors_once Script.new_handler (snd out).
Proof.
  intros raw out. split; [vm_compute; reflexivity|].
  apply (one_request_carries_cors Fixture.cpython raw
           (BaseHTTPRequestHandler.Headers "" "") (Return tt) (snd out)
           fixture_clean).
  - vm_compute. reflexivity.
  - vm_compute. discriminate.
Defined.

(** ** Request lines that [parse_request] turns down *)

Section Rejections.
Import BaseHTTPRequestHandler.

Variable P : platform.

Lemma send_response_0_9 code message (h : handler) :
  version_0_9 h = true -> send_response P code message h = (Return tt, h).
Proof.
  intros Hv. unfold send_response.
  erewrite mbind_return
    by (unfold send_response_only; unfold version_0_9 in Hv;
        rewrite Hv; reflexivity).
  erewrite mbind_return
    by (rewrite send_header_plain by reflexivity; rewrite Hv; reflexivity).
  rewrite send_header_plain by reflexivity. now rewrite Hv.
Qed.

Lemma send_header_connection_close_0_9 (h : handler) :
  version_0_9 h = true ->
  send_header "Connection" "close" h
  = (Return tt, set_close_connection true h).
Proof.
  intros Hv. unfold send_header, mbind. unfold version_0_9 in Hv.
  rewrite Hv. reflexivity.
Qed.

(** While the version is ['HTTP/0.9'], an error response is the page
    and nothing else. *)
Lemma send_error_0_9 (code : Z) (message : string)
    (explain : option string) (h : handler) :
  version_0_9 h = true ->
  ((200 <=? code)%Z
   && negb ((code =? 204)%Z || (code =? 205)%Z || (code =? 304)%Z)) = true ->
  let body :=
    error_page P code message
      (match explain with
       | Some x => x
       | None => long_message P code
       end) in
  CustomHTTPRequestHandler.send_error P code (Some message) explain h
  = (Return tt,
     mkHandler (request_version h) (command h) (self_path h)
       (headers_buffer h)
       (wfile h
        ++ (if negb (match command h with
                     | Some c => (c =? "HEAD")%string
                     | None => false
                     end)
               && negb (body =? "")%string
            then [body] else []))
       true).
Proof.
  intros Hv Hcode body.
  unfold CustomHTTPRequestHandler.send_error, send_error.
  assert (Hbody : error_page P code message
                    (match explain with
                     | Some x => x
                     | None => snd (match responses P code with
                                    | Some sl => sl
                                    | None => ("???", "???")%string
                                    end)
                     end) = body).
  { unfold body, long_message. destruct explain; [reflexivity|].
    now destruct (responses P code) as [[? ?]|]. }
  destruct (match responses P code with
            | Some sl => sl
            | None => _
            end) as [shortmsg longmsg].
  cbn [snd] in Hbody.
  erewrite mbind_return by (apply send_response_0_9; exact Hv).
  erewrite mbind_return by (apply send_header_connection_close_0_9; exact Hv).
  rewrite Hcode, Hbody.
  assert (Hv' : version_0_9 (set_close_connection true h) = true)
    by exact Hv.
  erewrite (mbind_return _ _ _ (Some body))
    by (erewrite mbind_return
          by (rewrite send_header_plain by reflexivity;
              rewrite Hv'; reflexivity);
        erewrite mbind_return
          by (rewrite send_header_plain by reflexivity;
              rewrite Hv'; reflexivity);
        reflexivity).
  change (self_end_headers (CustomHTTPRequestHandler.class P))
    with CustomHTTPRequestHandler.end_headers.
  erewrite mbind_return by (apply end_headers_0_9; exact Hv').
  cbn [command set_close_connection].
  destruct (negb _ && negb _); unfold update, ret, wfile_write,
    set_close_connection;
    cbn [request_version command self_path wfile close_connection
         headers_buffer];
    rewrite ?app_nil_r; reflexivity.
Qed.

End Rejections.

(** X20.  A request line of three words or more whose last word is not
    a version that [parse_request] accepts, because it is not of the
    form [HTTP/<int>.<int>] or because it names version 2.0 or later, is
    answered with the page of the 400 or 505 error and nothing else:
    no status line, no header, none of the three CORS lines.  The
    handler has recorded no method and no path, and its version is
    still ['HTTP/0.9']. *)
Theorem rejected_version_bare_page (P : platform) (raw_requestline : string)
    (headers : BaseHTTPRequestHandler.request_headers)
    (code : Z) (message : string) :
  let words := PyStr.split (PyStr.rstrip_crlf raw_requestline) in
  (Z.of_nat (String.length raw_requestline) <= 65536)%Z ->
  3 <= List.length words ->
  rejection P (last words ""%string) = Some (code, message) ->
  let body := error_page P code message (long_message P code) in
  Script.handle_one_request P raw_requestline headers Script.new_handler
  = (Return tt,
     mkHandler "HTTP/0.9" None "" None
       (if negb (body =? "")%string then [body] else []) true).
Proof.
  intros words Hlen Hwords Hrej body.
  unfold Script.handle_one_request.
  apply Z.ltb_ge in Hlen. rewrite Hlen.
  destruct (String.length raw_requestline =? 0)%nat eqn:E0.
  { apply Nat.eqb_eq in E0. destruct raw_requestline; [|discriminate].
    unfold words in Hwords. simpl in Hwords. lia. }
  unfold BaseHTTPRequestHandler.parse_request.
  unfold mbind at 2, update at 1. cbv beta iota zeta.
  fold words. unfold BaseHTTPRequestHandler.parse_words.
  destruct (List.length words =? 0)%nat eqn:E1;
    [apply Nat.eqb_eq in E1; lia|].
  apply Nat.leb_le in Hwords. rewrite Hwords.
  unfold rejection in Hrej.
  set (h := set_close_connection true
              (set_request_version
                 BaseHTTPRequestHandler.default_request_version
                 (set_command None Script.new_handler))).
  assert (Hsend :
            mbind (CustomHTTPRequestHandler.send_error P code (Some message)
                     None)
                  (fun _ => ret false) h
            = (Return false,
               mkHandler "HTTP/0.9" None "" None
                 (if negb (body =? "")%string then [body] else []) true)).
  { assert (Hcode : ((200 <=? code)%Z
                     && negb ((code =? 204)%Z || (code =? 205)%Z
                              || (code =? 304)%Z)) = true).
    { destruct (BaseHTTPRequestHandler.version_number (last words ""))
        as [[base number]|];
        [destruct (BaseHTTPRequestHandler.pair_ge number (2, 0)%Z)|];
        try discriminate; now injection Hrej as <- _. }
    erewrite mbind_return
      by (apply (send_error_0_9 P code message None h eq_refl Hcode)).
    subst h. cbn. fold body. now destruct (negb (body =? "")%string). }
  unfold CustomHTTPRequestHandler.send_error in Hsend. subst h.
  destruct (BaseHTTPRequestHandler.version_number (last words ""))
    as [[base number]|].
  - change ("HTTP/1.1" <=? BaseHTTPRequestHandler.protocol_version)%string
      with false.
    rewrite andb_false_r.
    destruct (BaseHTTPRequestHandler.pair_ge number (2, 0)%Z);
      [|discriminate].
    injection Hrej as Hc Hm. subst code.
    replace ("Invalid HTTP version (" ++ base ++ ")")%string with message
      by (symmetry; exact Hm).
    unfold mbind, ret in Hsend |- *. cbv beta iota.
    now rewrite Hsend.
  - injection Hrej as Hc Hm. subst code.
    replace ("Bad request version (" ++ repr_str P (last words "") ++ ")")%string
      with message by (symmetry; exact Hm).
    unfold mbind, ret in Hsend |- *. cbv beta iota.
    now rewrite Hsend.
Qed.

(** A last word that is no version at all: the bare page of the 400
    error. *)
Example bad_version_word_bare_page :
  Script.handle_one_request Fixture.cpython ("POST / FOO" ++ CRLF)%string
    (BaseHTTPRequestHandler.Headers "" "") Script.new_handler
  = (Return tt,
     mkHandler "HTTP/0.9" None "" None
       [error_page Fixture.cpython 400 "Bad request version ('FOO')"
          (long_message Fixture.cpython 400)] true).
Proof. vm_compute. reflexivity. Qed.

(** A request line without a version: the listing of the directory
    and nothing else. *)
Example versionless_line_bare_listing :
  Script.handle_one_request Fixture.cpython ("GET /examples/" ++ CRLF)%string
    (BaseHTTPRequestHandler.Headers "" "") Script.new_handler
  = (Return tt,
     mkHandler "HTTP/0.9" (Some "GET"%string) "/examples/" None
       ["<!DOCTYPE HTML><title>Directory listing</title>"%string] true).
Proof. vm_compute. reflexivity. Qed.

Lemma rejected_version_bare_page_witness :
  Script.handle_one_request Fixture.cpython
    ("GET /examples/ HTTP/2.0" ++ CRLF)%string
    (BaseHTTPRequestHandler.Headers "" "") Script.new_handler
  = (Return tt,
     mkHandler "HTTP/0.9" None "" None
       [error_page Fixture.cpython 505 "Invalid HTTP version (2.0)"
          (long_message Fixture.cpython 505)] true).
Proof.
  exact (rejected_version_bare_page Fixture.cpython
           ("GET /examples/ HTTP/2.0" ++ CRLF)%string
           (BaseHTTPRequestHandler.Headers "" "") 505
           "Invalid HTTP version (2.0)"
           ltac:(vm_compute; discriminate) ltac:(vm_compute; lia) eq_refl).
Defined.

(** ** Request lines that [parse_request] accepts *)

Section RequestLines.
Local Open Scope string_scope.

Lemma words_word (w rest : string) :
  forallb (fun c => negb (PyStr.isspace c)) (list_ascii_of_string w) = true ->
  PyStr.words (w ++ rest)
  = (w ++ fst (PyStr.words rest), snd (PyStr.words rest)).
Proof.
  induction w as [|c w IH]; intros H; simpl.
  - now destruct (PyStr.words rest).
  - simpl in H. apply andb_true_iff in H as [Hc H].
    rewrite (IH H). apply negb_true_iff in Hc. now rewrite Hc.
Qed.

Lemma words_space (rest : string) :
  PyStr.words (" " ++ rest)
  = ("", PyStr.cons_word (fst (PyStr.words rest)) (snd (PyStr.words rest))).
Proof. simpl. now destruct (PyStr.words rest). Qed.

Lemma cons_word_word (w : string) (ws : list string) :
  is_word w = true -> PyStr.cons_word w ws = w :: ws.
Proof. destruct w; [discriminate | reflexivity]. Qed.

Lemma is_word_chars (w : string) :
  is_word w = true ->
  forallb (fun c => negb (PyStr.isspace c)) (list_ascii_of_string w) = true.
Proof. unfold is_word. intros H. now apply andb_true_iff in H. Qed.

(** Three words with one space between them are the words of the
    line. *)
Lemma split_three_words (c p v : string) :
  is_word c = true -> is_word p = true -> is_word v = true ->
  PyStr.split (c ++ " " ++ p ++ " " ++ v) = [c; p; v].
Proof.
  intros Hc Hp Hv. unfold PyStr.split.
  assert (Ev : PyStr.words v = (v, [])).
  { rewrite <- (append_nil_r v) at 1.
    rewrite words_word by now apply is_word_chars.
    simpl. now rewrite append_nil_r. }
  rewrite words_word by now apply is_word_chars.
  rewrite words_space.
  rewrite words_word by now apply is_word_chars.
  rewrite words_space, Ev. cbn [fst snd].
  rewrite (cons_word_word v) by assumption. cbn [fst snd].
  rewrite !append_nil_r.
  rewrite (cons_word_word p) by assumption.
  now rewrite (cons_word_word c).
Qed.

Lemma isspace_crlf (z : ascii) :
  PyStr.isspace z = false ->
  ((nat_of_ascii z =? 13) || (nat_of_ascii z =? 10))%nat = false.
Proof.
  destruct z as [[] [] [] [] [] [] [] []]; try reflexivity; discriminate.
Qed.

(** The line end is stripped, and nothing of the last word. *)
Lemma rstrip_crlf_line (x v : string) :
  is_word v = true -> PyStr.rstrip_crlf (x ++ v ++ CRLF) = x ++ v.
Proof.
  intros Hv. unfold PyStr.rstrip_crlf.
  rewrite <- append_assoc, (list_ascii_app (x ++ v) CRLF).
  rewrite rev_app_distr. cbn [list_ascii_of_string CRLF rev app].
  cbn [PyStr.lstrip_crlf].
  change (nat_of_ascii LF =? 13)%nat with false.
  change (nat_of_ascii LF =? 10)%nat with true.
  change (nat_of_ascii CR =? 13)%nat with true.
  cbn [orb].
  rewrite list_ascii_app, rev_app_distr.
  assert (Hlast : exists z t,
             rev (list_ascii_of_string v) = z :: t
             /\ PyStr.isspace z = false).
  { pose proof (is_word_chars v Hv) as Hall.
    rewrite forallb_forall in Hall.
    destruct (rev (list_ascii_of_string v)) as [|z t] eqn:E.
    - destruct v; [discriminate Hv|].
      apply (f_equal (@List.length ascii)) in E.
      rewrite length_rev in E. discriminate E.
    - exists z, t. split; [reflexivity|].
      apply negb_true_iff, Hall, in_rev. rewrite E. now left. }
  destruct Hlast as (z & t & E & Hz). rewrite E.
  cbn [app PyStr.lstrip_crlf]. rewrite (isspace_crlf z Hz).
  rewrite app_comm_cons.
  rewrite <- E, <- rev_app_distr, rev_involutive, <- list_ascii_app.
  apply string_of_list_ascii_of_string.
Qed.

End RequestLines.

(** X21.  The requests that the accept loop hands to the handler methods:
    for a request line of three words, with a version that
    [parse_request] accepts, and headers that parse, [parse_request]
    sends nothing and stores the method, the path (leading slashes
    reduced to one) and the version; the handler is then as
    [parsed_request] gives it, and [handle_one_request] is the call of
    [do_GET], of [do_HEAD], or the 501 page. *)
Theorem accepted_line_is_dispatched (P : platform)
    (method path version connection expect base : string)
    (number : Z * Z) :
  let raw_requestline :=
    (method ++ " " ++ path ++ " " ++ version ++ CRLF)%string in
  is_word method = true -> is_word path = true -> is_word version = true ->
  (Z.of_nat (String.length raw_requestline) <= 65536)%Z ->
  BaseHTTPRequestHandler.version_number version = Some (base, number) ->
  BaseHTTPRequestHandler.pair_ge number (2, 0)%Z = false ->
  Script.handle_one_request P raw_requestline
    (BaseHTTPRequestHandler.Headers connection expect) Script.new_handler
  = Script.dispatch P
      (Script.parsed_request method
         (BaseHTTPRequestHandler.stored_path path) version).
Proof.
  intros raw Hm Hp Hv Hlen Hnum Hge.
  unfold Script.handle_one_request.
  apply Z.ltb_ge in Hlen. rewrite Hlen.
  assert (E0 : (String.length raw =? 0)%nat = false).
  { unfold raw. destruct method; [discriminate Hm | reflexivity]. }
  rewrite E0.
  unfold BaseHTTPRequestHandler.parse_request.
  unfold mbind at 2, update at 1. cbv beta iota zeta.
  assert (Eline : PyStr.rstrip_crlf raw
                  = (method ++ " " ++ path ++ " " ++ version)%string).
  { unfold raw.
    replace (method ++ " " ++ path ++ " " ++ version ++ CRLF)%string
      with ((method ++ " " ++ path ++ " ") ++ version ++ CRLF)%string
      by (now rewrite !append_assoc).
    rewrite rstrip_crlf_line by exact Hv. now rewrite !append_assoc. }
  rewrite Eline, split_three_words by assumption.
  unfold BaseHTTPRequestHandler.parse_words.
  cbn [List.length Nat.eqb Nat.leb last negb andb].
  rewrite Hnum.
  change ("HTTP/1.1" <=? BaseHTTPRequestHandler.protocol_version)%string
    with false.
  rewrite !andb_false_r, Hge.
  unfold mbind, ret, update. cbv beta iota delta [negb andb].
  unfold Script.parsed_request.
  destruct (PyStr.lower connection =? "close")%string; reflexivity.
Qed.

Lemma accepted_line_is_dispatched_witness :
  Script.handle_one_request Fixture.cpython
    ("GET /examples/ HTTP/1.1" ++ CRLF)%string
    (BaseHTTPRequestHandler.Headers "" "") Script.new_handler
  = Script.dispatch Fixture.cpython
      (Script.parsed_request "GET" "/examples/" "HTTP/1.1").
Proof.
  exact (accepted_line_is_dispatched Fixture.cpython
           "GET" "/examples/" "HTTP/1.1" "" "" "1.1" (1, 1)%Z
           eq_refl eq_refl eq_refl ltac:(vm_compute; discriminate)
           eq_refl eq_refl).
Defined.
